(** * Query history service (pkg/services/queryhistory/database.go)
      and the dashboard panel validator, embedded in Rocq.

    The relational store is modelled as two lists of rows.  Every statement
    sent to the store advances a clock and may be failed by the store's
    fault schedule, which is how errors of the driver reach the Go code.
    A transactional session restores the tables when its callback returns an
    error; the clock and the log written by the service are not restored. *)

From Stdlib Require Import ZArith List String Ascii Bool Lia.
From Stdlib Require Import Sorting.Sorted Sorting.Permutation.
Import ListNotations.

Local Open Scope string_scope.
Local Open Scope list_scope.
Local Open Scope Z_scope.

(** ** Go's [int] (64 bit, two's complement, silent wrap-around) *)

Definition int_min : Z := - 2 ^ 63.
Definition int_max : Z := 2 ^ 63 - 1.

Definition wrap_int (z : Z) : Z := (z + 2 ^ 63) mod 2 ^ 64 - 2 ^ 63.

Definition in_int (z : Z) : Prop := int_min <= z <= int_max.

Definition int_sub (a b : Z) : Z := wrap_int (a - b).
Definition int_mul (a b : Z) : Z := wrap_int (a * b).

(** ** Data model

    Modelled from the spec: the structs below are declared in models.go,
    which is not among the sources; their fields are those of section 3 and
    of the uses in database.go. Identifiers and times are [int64] and are
    never computed with, so they are plain integers here. *)

Module QueryHistory.
Record t : Type := mk
  { ID : Z;
    UID : string;
    OrgID : Z;
    DatasourceUID : string;
    CreatedBy : Z;
    CreatedAt : Z;
    Comment : string;
    Queries : string  (* the serialized JSON document of the column *) }.

(** [var queryHistory QueryHistory] *)
Definition zero : t := mk 0 "" 0 "" 0 0 "" "".

Definition with_Comment (c : string) (q : t) : t :=
  mk (ID q) (UID q) (OrgID q) (DatasourceUID q) (CreatedBy q) (CreatedAt q)
     c (Queries q).
End QueryHistory.

Module QueryHistoryStar.
Record t : Type := mk
  { ID : Z;
    QueryUID : string;
    UserID : Z }.
End QueryHistoryStar.

Module QueryHistoryDTO.
Record t : Type := mk
  { UID : string;
    DatasourceUID : string;
    CreatedBy : Z;
    CreatedAt : Z;
    Comment : string;
    Queries : string;
    Starred : bool }.

(** [QueryHistoryDTO{}] *)
Definition zero : t := mk "" "" 0 0 "" "" false.
End QueryHistoryDTO.

Record SignedInUser : Type :=
  { UserId : Z;
    OrgId : Z }.

(** [Page] and [Limit] are Go [int]s: the code compares them with [0],
    assigns [1] and [100], and multiplies them. *)
Record SearchInQueryHistoryQuery : Type :=
  { DatasourceUIDs : list string;
    SearchString : string;
    OnlyStarred : bool;
    Sort : string;
    Page : Z;
    Limit : Z }.

Record PatchQueryCommentInQueryHistoryCommand : Type :=
  { Comment : string }.

(** ** Errors *)

(** Errors raised by the store (driver, connection, constraint). *)
Inductive StoreErr : Type :=
| UniqueConstraintViolation
| DriverErr (code : Z).

(** Errors returned by the service. [ErrorsNew] is [errors.New(msg)]. *)
Inductive error : Type :=
| ErrQueryNotFound
| ErrQueryAlreadyStarred
| ErrStarredQueryNotFound
| ErrorsNew (msg : string)
| ErrStore (e : StoreErr).

Definition no_datasource_msg : string :=
  "no selected data source for query history search".

(** ** The store *)

Record DB : Type :=
  { query_history : list QueryHistory.t;
    query_history_star : list QueryHistoryStar.t }.

(** A failed statement: the pair [(int64, error)] the session call returns.
    A failed statement changes no row. *)
Record Fault : Type :=
  { fault_rows : Z;
    fault_err : StoreErr }.

(** The backend. [LikeStr_match pattern text] is the pattern match of the
    dialect's [LikeStr()] operator. [NegativeOffset] is what the backend does
    with [OFFSET n] for [n < 0]: [Some e] when it refuses the statement
    (MySQL, PostgreSQL), [None] when it reads it as [OFFSET 0] (SQLite). *)
Record Dialect : Type :=
  { LikeStr_match : string -> string -> bool;
    NegativeOffset : option StoreErr }.

Definition IsUniqueConstraintViolation (e : StoreErr) : bool :=
  match e with
  | UniqueConstraintViolation => true
  | DriverErr _ => false
  end.

(** [fault_schedule k] fails the [k]-th statement sent to the store. *)
Record SQLStore : Type :=
  { dialect : Dialect;
    fault_schedule : nat -> option Fault }.

Record LogEntry : Type :=
  { log_msg : string;
    log_query : string;
    log_user : Z;
    log_error : StoreErr }.

Record QueryHistoryService : Type :=
  { store : SQLStore }.

(** The mutable part: tables, number of statements sent, service log. *)
Record World : Type :=
  { db : DB;
    clock : nat;
    log : list LogEntry }.

Definition set_db (d : DB) (w : World) : World :=
  {| db := d; clock := clock w; log := log w |}.

(** ** A state monad over [World] *)

Definition M (A : Type) : Type := World -> A * World.

Definition ret {A} (a : A) : M A := fun w => (a, w).

Definition bind {A B} (m : M A) (k : A -> M B) : M B :=
  fun w => let (a, w') := m w in k a w'.

Declare Scope session_scope.
Delimit Scope session_scope with session.
Notation "x <- m ;; k" := (bind m (fun x => k))
  (at level 100, m at next level, right associativity) : session_scope.
Notation "' p <- m ;; k" := (bind m (fun x => match x with p => k end))
  (at level 100, p pattern, m at next level, right associativity)
  : session_scope.
Local Open Scope session_scope.

(** One statement: it is counted, and either failed by the schedule or run
    on the tables. *)
Definition statement {A} (st : SQLStore)
    (run : DB -> A * DB) (failed : Fault -> A) : M A :=
  fun w =>
    let w' := {| db := db w; clock := S (clock w); log := log w |} in
    match fault_schedule st (clock w) with
    | Some f => (failed f, w')
    | None => let (a, d) := run (db w) in (a, set_db d w')
    end.

Definition log_Error (e : LogEntry) : M unit :=
  fun w => (tt, {| db := db w; clock := clock w; log := log w ++ [e] |}).

(** [WithDbSession]: the callback runs on the store as it is. *)
Definition WithDbSession {A} (fn : M (A * option error))
  : M (A * option error) := fn.

(** [WithTransactionalDbSession]: commit when the callback returns [nil],
    roll the tables back when it returns an error. The commit itself is
    taken to succeed. *)
Definition WithTransactionalDbSession {A} (fn : M (A * option error))
  : M (A * option error) :=
  fun w =>
    let (r, w') := fn w in
    match snd r with
    | Some _ => (r, set_db (db w) w')
    | None => (r, w')
    end.

(** *** Row predicates of the [Where] clauses *)

(** [org_id = ? AND created_by = ? AND uid = ?] *)
Definition owned_by (org usr : Z) (uid : string) (q : QueryHistory.t) : bool :=
  (QueryHistory.OrgID q =? org) && (QueryHistory.CreatedBy q =? usr)
  && String.eqb (QueryHistory.UID q) uid.

(** [user_id = ? AND query_uid = ?] *)
Definition star_of (usr : Z) (uid : string) (s : QueryHistoryStar.t) : bool :=
  (QueryHistoryStar.UserID s =? usr)
  && String.eqb (QueryHistoryStar.QueryUID s) uid.

Definition rows_affected {A} (l : list A) : Z := Z.of_nat (List.length l).

(** *** Session calls used by the service *)

(** [session.Table("query_history_star").Where(...).Delete(QueryHistoryStar{})] *)
Definition Delete_star (st : SQLStore) (usr : Z) (uid : string)
  : M (Z * option StoreErr) :=
  statement st
    (fun d =>
       ((rows_affected (filter (star_of usr uid) (query_history_star d)), None),
        {| query_history := query_history d;
           query_history_star :=
             filter (fun s => negb (star_of usr uid s)) (query_history_star d) |}))
    (fun f => (fault_rows f, Some (fault_err f))).

(** [session.Where(...).Delete(QueryHistory{})] *)
Definition Delete_query (st : SQLStore) (org usr : Z) (uid : string)
  : M (Z * option StoreErr) :=
  statement st
    (fun d =>
       ((rows_affected (filter (owned_by org usr uid) (query_history d)), None),
        {| query_history :=
             filter (fun q => negb (owned_by org usr uid q)) (query_history d);
           query_history_star := query_history_star d |}))
    (fun f => (fault_rows f, Some (fault_err f))).

(** [session.Where(...).Get(&queryHistory)]: the first matching row is
    scanned into the bean; the bean is left as it was when there is none. *)
Definition Get_query (st : SQLStore) (org usr : Z) (uid : string)
    (bean : QueryHistory.t) : M (QueryHistory.t * (bool * option StoreErr)) :=
  statement st
    (fun d =>
       match find (owned_by org usr uid) (query_history d) with
       | Some q => ((q, (true, None)), d)
       | None => ((bean, (false, None)), d)
       end)
    (fun f => (bean, (false, Some (fault_err f)))).

(** xorm's [Update] with a struct bean and no [Cols], [MustCols] or
    [AllCols]: the columns written are the bean's fields that are not the
    zero value of their type; the primary key is never written. *)
Definition pick_string (bean old : string) : string :=
  if String.eqb bean "" then old else bean.

Definition pick_int (bean old : Z) : Z :=
  if bean =? 0 then old else bean.

Definition update_row (bean row : QueryHistory.t) : QueryHistory.t :=
  QueryHistory.mk
    (QueryHistory.ID row)
    (pick_string (QueryHistory.UID bean) (QueryHistory.UID row))
    (pick_int (QueryHistory.OrgID bean) (QueryHistory.OrgID row))
    (pick_string (QueryHistory.DatasourceUID bean) (QueryHistory.DatasourceUID row))
    (pick_int (QueryHistory.CreatedBy bean) (QueryHistory.CreatedBy row))
    (pick_int (QueryHistory.CreatedAt bean) (QueryHistory.CreatedAt row))
    (pick_string (QueryHistory.Comment bean) (QueryHistory.Comment row))
    (pick_string (QueryHistory.Queries bean) (QueryHistory.Queries row)).

(** [session.ID(id).Update(bean)] *)
Definition Update_query (st : SQLStore) (id : Z) (bean : QueryHistory.t)
  : M (Z * option StoreErr) :=
  statement st
    (fun d =>
       ((rows_affected
           (filter (fun q => QueryHistory.ID q =? id) (query_history d)), None),
        {| query_history :=
             map (fun q => if QueryHistory.ID q =? id then update_row bean q
                           else q) (query_history d);
           query_history_star := query_history_star d |}))
    (fun f => (fault_rows f, Some (fault_err f))).

(** [session.Table("query_history_star").Where(...).Exist()] *)
Definition Exist_star (st : SQLStore) (usr : Z) (uid : string)
  : M (bool * option StoreErr) :=
  statement st
    (fun d => ((existsb (star_of usr uid) (query_history_star d), None), d))
    (fun f => (false, Some (fault_err f))).

Definition next_star_id (l : list QueryHistoryStar.t) : Z :=
  1 + fold_right Z.max 0 (map QueryHistoryStar.ID l).

(** [session.Insert(&queryHistoryStar)]. The table is unique on
    [(user_id, query_uid)] (schema of section 6 of the spec; the migration
    is not among the sources): a second row for the pair is refused with a
    unique-constraint violation. The id is assigned by the store. *)
Definition Insert_star (st : SQLStore) (usr : Z) (uid : string)
  : M (Z * option StoreErr) :=
  statement st
    (fun d =>
       if existsb (star_of usr uid) (query_history_star d)
       then ((0, Some UniqueConstraintViolation), d)
       else ((1, None),
             {| query_history := query_history d;
                query_history_star :=
                  query_history_star d
                  ++ [QueryHistoryStar.mk
                        (next_star_id (query_history_star d)) uid usr] |}))
    (fun f => (fault_rows f, Some (fault_err f))).

(** *** The search statement

    The Go code assembles the statement as text; here its clauses are the
    fields of a record, filled by the same branches. *)

Inductive JoinKind : Type := INNER_JOIN | LEFT_JOIN.
Inductive OrderDir : Type := ASC | DESC.

Record SearchSQL : Type :=
  { sql_join : JoinKind;
    sql_org_id : Z;
    sql_created_by : Z;
    sql_pattern : string;
    sql_datasource_uids : list string;
    sql_order : OrderDir;
    sql_limit : Z;
    sql_offset : Z }.

Definition JoinedRow : Type := (QueryHistory.t * option QueryHistoryStar.t)%type.

(** [ON query_history_star.query_uid = query_history.uid] *)
Definition join_on (q : QueryHistory.t) (s : QueryHistoryStar.t) : bool :=
  String.eqb (QueryHistoryStar.QueryUID s) (QueryHistory.UID q).

Definition join_row (j : JoinKind) (stars : list QueryHistoryStar.t)
    (q : QueryHistory.t) : list JoinedRow :=
  match j, filter (join_on q) stars with
  | LEFT_JOIN, [] => [(q, None)]
  | _, matched => map (fun s => (q, Some s)) matched
  end.

Definition join (j : JoinKind) (d : DB) : list JoinedRow :=
  flat_map (join_row j (query_history_star d)) (query_history d).

(** [WHERE org_id = ? AND created_by = ? AND queries LIKE ?
          AND datasource_uid IN (?, ...)] *)
Definition where_clause (dl : Dialect) (sql : SearchSQL) (r : JoinedRow) : bool :=
  (QueryHistory.OrgID (fst r) =? sql_org_id sql)
  && (QueryHistory.CreatedBy (fst r) =? sql_created_by sql)
  && LikeStr_match dl (sql_pattern sql) (QueryHistory.Queries (fst r))
  && existsb (String.eqb (QueryHistory.DatasourceUID (fst r)))
       (sql_datasource_uids sql).

Definition comes_first (o : OrderDir) (a b : Z) : bool :=
  match o with
  | ASC => a <=? b
  | DESC => b <=? a
  end.

Definition created_at (r : JoinedRow) : Z := QueryHistory.CreatedAt (fst r).

Fixpoint insert_row (o : OrderDir) (r : JoinedRow) (l : list JoinedRow)
  : list JoinedRow :=
  match l with
  | [] => [r]
  | x :: t =>
      if comes_first o (created_at r) (created_at x) then r :: x :: t
      else x :: insert_row o r t
  end.

(** [ORDER BY created_at], as a stable insertion sort: SQL leaves the order
    of rows of equal time open, here they keep their table order. *)
Definition order_by (o : OrderDir) (l : list JoinedRow) : list JoinedRow :=
  fold_right (insert_row o) [] l.

(** [LIMIT ? OFFSET ?]. The limit sent is always positive. *)
Definition limit_offset {A} (lim off : Z) (l : list A) : list A :=
  firstn (Z.to_nat lim) (skipn (Z.to_nat off) l).

(** The select list: the six columns of [query_history] and ["starred"],
    the true literal under the inner join and
    [CASE WHEN query_history_star.query_uid IS NULL THEN false ELSE true END]
    under the left join. *)
Definition starred_column (j : JoinKind) (r : JoinedRow) : bool :=
  match j with
  | INNER_JOIN => true
  | LEFT_JOIN => match snd r with None => false | Some _ => true end
  end.

Definition select_row (j : JoinKind) (r : JoinedRow) : QueryHistoryDTO.t :=
  QueryHistoryDTO.mk
    (QueryHistory.UID (fst r)) (QueryHistory.DatasourceUID (fst r))
    (QueryHistory.CreatedBy (fst r)) (QueryHistory.CreatedAt (fst r))
    (QueryHistory.Comment (fst r)) (QueryHistory.Queries (fst r))
    (starred_column j r).

(** The rows of the statement before [LIMIT] and [OFFSET]. *)
Definition matching_rows (dl : Dialect) (sql : SearchSQL) (d : DB)
  : list JoinedRow :=
  order_by (sql_order sql) (filter (where_clause dl sql) (join (sql_join sql) d)).

(** The answer of the store to the statement. *)
Definition run_search (dl : Dialect) (sql : SearchSQL) (d : DB)
  : list QueryHistoryDTO.t * option StoreErr :=
  match sql_offset sql <? 0, NegativeOffset dl with
  | true, Some e => ([], Some e)
  | _, _ =>
      (map (select_row (sql_join sql))
         (limit_offset (sql_limit sql) (sql_offset sql)
            (matching_rows dl sql d)), None)
  end.

(** [session.SQL(sql, params...).Find(&queries)] *)
Definition Find_search (st : SQLStore) (sql : SearchSQL)
  : M (list QueryHistoryDTO.t * option StoreErr) :=
  statement st
    (fun d => (run_search (dialect st) sql d, d))
    (fun f => ([], Some (fault_err f))).

(** ** The service *)

Definition store_error (e : option StoreErr) : option error :=
  option_map ErrStore e.

Definition dto_of (q : QueryHistory.t) (starred : bool) : QueryHistoryDTO.t :=
  QueryHistoryDTO.mk
    (QueryHistory.UID q) (QueryHistory.DatasourceUID q)
    (QueryHistory.CreatedBy q) (QueryHistory.CreatedAt q)
    (QueryHistory.Comment q) (QueryHistory.Queries q) starred.

(** [if query.Page <= 0 { query.Page = 1 }] and the like. *)
Definition default_page (p : Z) : Z := if p <=? 0 then 1 else p.
Definition default_limit (l : Z) : Z := if l <=? 0 then 100 else l.
Definition default_sort (srt : string) : string :=
  if String.eqb srt "" then "time-desc" else srt.

(** The statement [searchQueries] sends: the clauses chosen by the filter
    and the parameters, with [offset := query.Limit * (query.Page - 1)]
    computed on Go's [int]. *)
Definition search_statement (user : SignedInUser)
    (query : SearchInQueryHistoryQuery) : SearchSQL :=
  let page := default_page (Page query) in
  let limit := default_limit (Limit query) in
  let sort := default_sort (Sort query) in
  let offset := int_mul limit (int_sub page 1) in
  {| sql_join := if OnlyStarred query then INNER_JOIN else LEFT_JOIN;
     sql_org_id := OrgId user;
     sql_created_by := UserId user;
     sql_pattern := String.append "%" (String.append (SearchString query) "%");
     sql_datasource_uids := DatasourceUIDs query;
     sql_order := if String.eqb sort "time-asc" then ASC else DESC;
     sql_limit := limit;
     sql_offset := offset |}.

Definition searchQueries (s : QueryHistoryService) (user : SignedInUser)
    (query : SearchInQueryHistoryQuery)
  : M (list QueryHistoryDTO.t * option error) :=
  match DatasourceUIDs query with
  | [] => ret ([], Some (ErrorsNew no_datasource_msg))
  | _ :: _ =>
      '(queries, err) <-
        WithDbSession
          ('(rows, err) <- Find_search (store s) (search_statement user query) ;;
           ret (rows, store_error err)) ;;
      match err with
      | Some e => ret ([], Some e)
      | None => ret (queries, None)
      end
  end.

Definition unstar_failed_msg : string :=
  "Failed to unstar query while deleting it from query history".

Definition unstar_failed_entry (user : SignedInUser) (UID : string)
    (e : StoreErr) : LogEntry :=
  {| log_msg := unstar_failed_msg;
     log_query := UID;
     log_user := UserId user;
     log_error := e |}.

Definition deleteQuery (s : QueryHistoryService) (user : SignedInUser)
    (UID : string) : M (Z * option error) :=
  WithTransactionalDbSession
    ('(_, err) <- Delete_star (store s) (UserId user) UID ;;
     _ <- match err with
          | Some e => log_Error (unstar_failed_entry user UID e)
          | None => ret tt
          end ;;
     '(id, err) <- Delete_query (store s) (OrgId user) (UserId user) UID ;;
     match err with
     | Some e => ret (0, Some (ErrStore e))
     | None =>
         if id =? 0 then ret (0, Some ErrQueryNotFound)
         else ret (id, None)
     end).

Definition patchQueryComment (s : QueryHistoryService) (user : SignedInUser)
    (UID : string) (cmd : PatchQueryCommentInQueryHistoryCommand)
  : M (QueryHistoryDTO.t * option error) :=
  '((queryHistory, isStarred), err) <-
    WithTransactionalDbSession
      ('(queryHistory, (found, err)) <-
         Get_query (store s) (OrgId user) (UserId user) UID QueryHistory.zero ;;
       match err with
       | Some e => ret ((queryHistory, false), Some (ErrStore e))
       | None =>
           if negb found then ret ((queryHistory, false), Some ErrQueryNotFound)
           else
             let queryHistory :=
               QueryHistory.with_Comment (Comment cmd) queryHistory in
             '(_, err) <-
               Update_query (store s) (QueryHistory.ID queryHistory) queryHistory ;;
             match err with
             | Some e => ret ((queryHistory, false), Some (ErrStore e))
             | None =>
                 '(starred, err) <- Exist_star (store s) (UserId user) UID ;;
                 match err with
                 | Some e => ret ((queryHistory, false), Some (ErrStore e))
                 | None => ret ((queryHistory, starred), None)
                 end
             end
       end) ;;
  match err with
  | Some e => ret (QueryHistoryDTO.zero, Some e)
  | None => ret (dto_of queryHistory isStarred, None)
  end.

Definition starQuery (s : QueryHistoryService) (user : SignedInUser)
    (UID : string) : M (QueryHistoryDTO.t * option error) :=
  '((queryHistory, isStarred), err) <-
    WithTransactionalDbSession
      ('(queryHistory, (found, err)) <-
         Get_query (store s) (OrgId user) (UserId user) UID QueryHistory.zero ;;
       match err with
       | Some e => ret ((queryHistory, false), Some (ErrStore e))
       | None =>
           if negb found then ret ((queryHistory, false), Some ErrQueryNotFound)
           else
             '(_, err) <- Insert_star (store s) (UserId user) UID ;;
             match err with
             | Some e =>
                 if IsUniqueConstraintViolation e
                 then ret ((queryHistory, false), Some ErrQueryAlreadyStarred)
                 else ret ((queryHistory, false), Some (ErrStore e))
             | None => ret ((queryHistory, true), None)
             end
       end) ;;
  match err with
  | Some e => ret (QueryHistoryDTO.zero, Some e)
  | None => ret (dto_of queryHistory isStarred, None)
  end.

Definition unstarQuery (s : QueryHistoryService) (user : SignedInUser)
    (UID : string) : M (QueryHistoryDTO.t * option error) :=
  '((queryHistory, isStarred), err) <-
    WithTransactionalDbSession
      ('(queryHistory, (found, err)) <-
         Get_query (store s) (OrgId user) (UserId user) UID QueryHistory.zero ;;
       match err with
       | Some e => ret ((queryHistory, false), Some (ErrStore e))
       | None =>
           if negb found then ret ((queryHistory, false), Some ErrQueryNotFound)
           else
             '(id, err) <- Delete_star (store s) (UserId user) UID ;;
             if id =? 0 then ret ((queryHistory, false), Some ErrStarredQueryNotFound)
             else
               match err with
               | Some e => ret ((queryHistory, false), Some (ErrStore e))
               | None => ret ((queryHistory, false), None)
               end
       end) ;;
  match err with
  | Some e => ret (QueryHistoryDTO.zero, Some e)
  | None => ret (dto_of queryHistory isStarred, None)
  end.

(** *** createQuery *)

Record CreateQueryInQueryHistoryCommand : Type :=
  { DatasourceUID : string;
    Queries : string }.

Definition next_query_id (l : list QueryHistory.t) : Z :=
  1 + fold_right Z.max 0 (map QueryHistory.ID l).

(** [session.Insert(&queryHistory)]: the id is assigned by the store.
    Modelled from the spec: the table is unique on [uid] (schema of
    section 6; the migration is not among the sources). *)
Definition Insert_query (st : SQLStore) (bean : QueryHistory.t)
  : M (Z * option StoreErr) :=
  statement st
    (fun d =>
       if existsb (fun q => String.eqb (QueryHistory.UID q) (QueryHistory.UID bean))
            (query_history d)
       then ((0, Some UniqueConstraintViolation), d)
       else ((1, None),
             {| query_history :=
                  query_history d
                  ++ [QueryHistory.mk (next_query_id (query_history d))
                        (QueryHistory.UID bean) (QueryHistory.OrgID bean)
                        (QueryHistory.DatasourceUID bean)
                        (QueryHistory.CreatedBy bean)
                        (QueryHistory.CreatedAt bean)
                        (QueryHistory.Comment bean)
                        (QueryHistory.Queries bean)];
                query_history_star := query_history_star d |}))
    (fun f => (fault_rows f, Some (fault_err f))).

(** [uid] and [now] are the results of [util.GenerateShortUID()] and
    [time.Now().Unix()]. *)
Definition createQuery (s : QueryHistoryService) (user : SignedInUser)
    (cmd : CreateQueryInQueryHistoryCommand) (uid : string) (now : Z)
  : M (QueryHistoryDTO.t * option error) :=
  let queryHistory :=
    QueryHistory.mk 0 uid (OrgId user) (DatasourceUID cmd) (UserId user) now
      "" (Queries cmd) in
  '(_, err) <-
    WithDbSession
      ('(_, err) <- Insert_query (store s) queryHistory ;;
       ret (tt, store_error err)) ;;
  match err with
  | Some e => ret (QueryHistoryDTO.zero, Some e)
  | None => ret (dto_of queryHistory false, None)
  end.

(** ** A concrete dialect and store, used to run the service *)

(** SQL [LIKE]: [%] matches any run of characters, [_] exactly one. *)
Fixpoint sql_like (pattern text : string) : bool :=
  match pattern with
  | EmptyString =>
      match text with EmptyString => true | String _ _ => false end
  | String c p =>
      if Ascii.eqb c "%"%char then
        (fix any_run (t : string) : bool :=
           sql_like p t
           || match t with
              | EmptyString => false
              | String _ t' => any_run t'
              end) text
      else
        match text with
        | EmptyString => false
        | String c' t' =>
            (Ascii.eqb c "_"%char || Ascii.eqb c c') && sql_like p t'
        end
  end.

(** A backend with a case-sensitive [LIKE] that reads a negative offset
    as 0. *)
Definition sample_dialect : Dialect :=
  {| LikeStr_match := sql_like; NegativeOffset := None |}.

Definition no_faults : nat -> option Fault := fun _ => None.

(** The schedule that fails statement [k] only. *)
Definition fail_at (k : nat) (f : Fault) : nat -> option Fault :=
  fun n => if Nat.eqb n k then Some f else None.

Definition service (faults : nat -> option Fault) : QueryHistoryService :=
  {| store := {| dialect := sample_dialect; fault_schedule := faults |} |}.

Definition world_of (d : DB) : World := {| db := d; clock := 0; log := [] |}.

(** ** Dashboard panel validator *)

Local Set Warnings "-register-all".

Module Dashboard.

(** The dashboard document, as [simplejson] exposes it. *)
Inductive Json : Type :=
| JNull
| JBool (b : bool)
| JInt (n : Z)
| JString (s : string)
| JArray (items : list Json)
| JObject (fields : list (string * Json)).

Record Dashboard : Type :=
  { Uid : string;
    OrgId : Z;
    Data : option Json }.

Inductive error : Type :=
| ErrDashboardOrPanelIdentifierNotSet
| ErrDashboardNotFound
| ErrDashboardCorrupt
| ErrDashboardPanelNotFound.

(** The dashboards of the store and the number of lookups made. *)
Record Store : Type :=
  { dashboards : list Dashboard;
    lookups : nat }.

(** [getDashboard(orgID, uid)]: one lookup; not-found is reported as
    [ErrDashboardNotFound]. *)
Definition GetDashboard (orgID : Z) (uid : string) (st : Store)
  : (Dashboard + error) * Store :=
  let st' := {| dashboards := dashboards st; lookups := S (lookups st) |} in
  match find (fun d => (OrgId d =? orgID) && String.eqb (Uid d) uid)
             (dashboards st) with
  | Some d => (inl d, st')
  | None => (inr ErrDashboardNotFound, st')
  end.

Definition Get (key : string) (j : Json) : Json :=
  match j with
  | JObject fields =>
      match find (fun kv => String.eqb (fst kv) key) fields with
      | Some kv => snd kv
      | None => JNull
      end
  | _ => JNull
  end.

Definition items_of (j : Json) : list Json :=
  match j with
  | JArray items => items
  | _ => []
  end.

(** The entry's [id] field is the integer [panelID]. *)
Definition has_id (panelID : Z) (panel : Json) : bool :=
  match Get "id" panel with
  | JInt n => n =? panelID
  | _ => false
  end.

(** Modelled from the spec: [checkDashboardAndPanel] is not among the
    sources (only its test is); this follows section 4.2, steps 1 to 5. *)
Definition checkDashboardAndPanel (orgID : Z) (dashboardUID : string)
    (panelID : Z) (st : Store) : option error * Store :=
  if String.eqb dashboardUID "" || (panelID <=? 0)
  then (Some ErrDashboardOrPanelIdentifierNotSet, st)
  else
    match GetDashboard orgID dashboardUID st with
    | (inr e, st') => (Some e, st')
    | (inl d, st') =>
        match Data d with
        | None => (Some ErrDashboardCorrupt, st')
        | Some doc =>
            if existsb (has_id panelID) (items_of (Get "panels" doc))
            then (None, st')
            else (Some ErrDashboardPanelNotFound, st')
        end
    end.

End Dashboard.

(** ** Sample data *)

Definition alice : SignedInUser := {| UserId := 7; OrgId := 1 |}.

Definition bob : SignedInUser := {| UserId := 8; OrgId := 1 |}.

Definition q1 : QueryHistory.t :=
  QueryHistory.mk 1 "q1" 1 "ds1" 7 100 "old" "[{refId:A}]".
Definition q2 : QueryHistory.t :=
  QueryHistory.mk 2 "q2" 1 "ds1" 7 200 "" "[{refId:B}]".
Definition q3 : QueryHistory.t :=
  QueryHistory.mk 3 "q3" 1 "ds2" 7 300 "" "[{refId:A}]".

Definition star_q1 : QueryHistoryStar.t := QueryHistoryStar.mk 1 "q1" 7.
Definition foreign_star_q2 : QueryHistoryStar.t := QueryHistoryStar.mk 2 "q2" 8.

Definition db0 : DB :=
  {| query_history := [q1; q2; q3]; query_history_star := [] |}.
Definition db1 : DB :=
  {| query_history := [q1; q2; q3]; query_history_star := [star_q1] |}.
Definition db2 : DB :=
  {| query_history := [q1; q2; q3];
     query_history_star := [star_q1; foreign_star_q2] |}.



Definition driver_down : Fault := {| fault_rows := 0; fault_err := DriverErr 1 |}.

Definition with_Page (p : Z) (query : SearchInQueryHistoryQuery)
  : SearchInQueryHistoryQuery :=
  {| DatasourceUIDs := DatasourceUIDs query;
     SearchString := SearchString query;
     OnlyStarred := OnlyStarred query;
     Sort := Sort query;
     Page := p;
     Limit := Limit query |}.

Definition with_Limit (l : Z) (query : SearchInQueryHistoryQuery)
  : SearchInQueryHistoryQuery :=
  {| DatasourceUIDs := DatasourceUIDs query;
     SearchString := SearchString query;
     OnlyStarred := OnlyStarred query;
     Sort := Sort query;
     Page := Page query;
     Limit := l |}.

Definition with_Sort (srt : string) (query : SearchInQueryHistoryQuery)
  : SearchInQueryHistoryQuery :=
  {| DatasourceUIDs := DatasourceUIDs query;
     SearchString := SearchString query;
     OnlyStarred := OnlyStarred query;
     Sort := srt;
     Page := Page query;
     Limit := Limit query |}.



Definition search_q (ds : list string) (only : bool) (srt : string)
    (page limit : Z) : SearchInQueryHistoryQuery :=
  {| DatasourceUIDs := ds;
     SearchString := "refId";
     OnlyStarred := only;
     Sort := srt;
     Page := page;
     Limit := limit |}.

(** The dashboard of the test, reduced to its panels: one panel, id 2. *)
Definition dashboardJson : Dashboard.Json :=
  Dashboard.JObject
    [("editable", Dashboard.JBool true);
     ("panels",
      Dashboard.JArray
        [Dashboard.JObject
           [("id", Dashboard.JInt 2);
            ("title", Dashboard.JString "Panel Title");
            ("type", Dashboard.JString "timeseries")]]);
     ("schemaVersion", Dashboard.JInt 35)].

Definition testOrgID : Z := 1.

Definition dashboard_store : Dashboard.Store :=
  {| Dashboard.dashboards :=
       [ {| Dashboard.Uid := "1"; Dashboard.OrgId := testOrgID;
            Dashboard.Data := Some dashboardJson |};
         {| Dashboard.Uid := "2"; Dashboard.OrgId := testOrgID;
            Dashboard.Data := None |} ];
     Dashboard.lookups := 0 |}.

(** ** Properties of the state of the store *)

(** Order of two rows, and of two DTOs, by creation time. *)
Definition row_before (o : OrderDir) (a b : JoinedRow) : Prop :=
  comes_first o (created_at a) (created_at b) = true.

Definition dto_before (o : OrderDir) (a b : QueryHistoryDTO.t) : Prop :=
  match o with
  | ASC => QueryHistoryDTO.CreatedAt a <= QueryHistoryDTO.CreatedAt b
  | DESC => QueryHistoryDTO.CreatedAt b <= QueryHistoryDTO.CreatedAt a
  end.

(** The whole answer of the search, before [LIMIT] and [OFFSET]. *)
Definition all_results (s : QueryHistoryService) (user : SignedInUser)
    (query : SearchInQueryHistoryQuery) (d : DB) : list QueryHistoryDTO.t :=
  map (select_row (sql_join (search_statement user query)))
    (matching_rows (dialect (store s)) (search_statement user query) d).

(** A star row of any user that references the query. *)
Definition referenced (UID : string) (d : DB) : Prop :=
  exists st, In st (query_history_star d) /\ QueryHistoryStar.QueryUID st = UID.


Definition query_visible (user : SignedInUser) (UID : string) (d : DB) : Prop :=
  exists q, In q (query_history d)
            /\ owned_by (OrgId user) (UserId user) UID q = true.

Definition starred_by (user : SignedInUser) (UID : string) (d : DB) : Prop :=
  exists st, In st (query_history_star d)
             /\ star_of (UserId user) UID st = true.

(** Statements [from], ..., [from + n - 1] are not failed by the store. *)
Definition healthy (s : QueryHistoryService) (from n : nat) : Prop :=
  forall k, (from <= k < from + n)%nat -> fault_schedule (store s) k = None.

(** *** Invariants of the tables *)

(** Every star row belongs to a query row created by the star's user. *)
Definition stars_have_queries (d : DB) : Prop :=
  forall st, In st (query_history_star d) ->
    exists q, In q (query_history d)
              /\ QueryHistory.CreatedBy q = QueryHistoryStar.UserID st
              /\ QueryHistory.UID q = QueryHistoryStar.QueryUID st.

Definition star_key (st : QueryHistoryStar.t) : Z * string :=
  (QueryHistoryStar.UserID st, QueryHistoryStar.QueryUID st).

(** At most one star row per (user, query). *)
Definition stars_unique (d : DB) : Prop :=
  NoDup (map star_key (query_history_star d)).

(** The primary key of [query_history]. *)
Definition ids_unique (d : DB) : Prop :=
  NoDup (map QueryHistory.ID (query_history d)).

(** No query row carries the uid. *)
Definition uid_fresh (uid : string) (d : DB) : Prop :=
  forall q, In q (query_history d) -> QueryHistory.UID q <> uid.

Definition create_cmd : CreateQueryInQueryHistoryCommand :=
  {| DatasourceUID := "ds1"; Queries := "[{refId:C}]" |}.

(** ** Running statements *)

Ltac open_session :=
  unfold WithTransactionalDbSession, WithDbSession, bind, ret,
    Get_query, Insert_star, Delete_star, Delete_query, Update_query,
    Exist_star, Find_search, log_Error, set_db.

Lemma statement_run {A} (st : SQLStore) (run : DB -> A * DB)
    (failed : Fault -> A) (w : World) :
  fault_schedule st (clock w) = None ->
  statement st run failed w
  = (fst (run (db w)),
     {| db := snd (run (db w)); clock := S (clock w); log := log w |}).
Proof.
  intros H. unfold statement. rewrite H. destruct (run (db w)); reflexivity.
Qed.

Lemma statement_fault {A} (st : SQLStore) (run : DB -> A * DB)
    (failed : Fault -> A) (w : World) (f : Fault) :
  fault_schedule st (clock w) = Some f ->
  statement st run failed w
  = (failed f, {| db := db w; clock := S (clock w); log := log w |}).
Proof.
  intros H. unfold statement. rewrite H. reflexivity.
Qed.

Lemma healthy_at (s : QueryHistoryService) (from n k : nat) :
  healthy s from n -> (from <= k < from + n)%nat ->
  fault_schedule (store s) k = None.
Proof. intros H Hk. apply H, Hk. Qed.

Ltac runs H := simpl; apply (healthy_at _ _ _ _ H); lia.

Lemma find_absent {A} (f : A -> bool) (l : list A) :
  (forall x, In x l -> f x = false) -> find f l = None.
Proof.
  induction l as [|a l IH]; intros H; simpl; [reflexivity|].
  rewrite (H a (or_introl eq_refl)). apply IH. intros x Hx. apply H. now right.
Qed.

Lemma find_present {A} (f : A -> bool) (l : list A) :
  (exists x, In x l /\ f x = true) ->
  exists y, find f l = Some y /\ In y l /\ f y = true.
Proof.
  intros [x [Hin Hf]]. destruct (find f l) as [y|] eqn:E.
  - exists y. apply find_some in E. tauto.
  - rewrite (find_none _ _ E x Hin) in Hf. discriminate.
Qed.

Lemma filter_absent {A} (f : A -> bool) (l : list A) :
  (forall x, In x l -> f x = false) -> filter f l = [].
Proof.
  induction l as [|a l IH]; intros H; simpl; [reflexivity|].
  rewrite (H a (or_introl eq_refl)). apply IH. intros x Hx. apply H. now right.
Qed.

Lemma filter_negb_absent {A} (f : A -> bool) (l : list A) :
  (forall x, In x l -> f x = false) -> filter (fun x => negb (f x)) l = l.
Proof.
  induction l as [|a l IH]; intros H; simpl; [reflexivity|].
  rewrite (H a (or_introl eq_refl)). simpl. f_equal. apply IH.
  intros x Hx. apply H. now right.
Qed.

Lemma filter_negb_clears {A} (f : A -> bool) (l : list A) (x : A) :
  In x (filter (fun y => negb (f y)) l) -> f x = false.
Proof.
  intros H. apply filter_In in H. destruct H as [_ H].
  now apply negb_true_iff in H.
Qed.

Lemma rows_affected_zero {A} (f : A -> bool) (l : list A) :
  rows_affected (filter f l) = 0 <-> (forall x, In x l -> f x = false).
Proof.
  unfold rows_affected. split.
  - intros H x Hx. destruct (f x) eqn:E; [|reflexivity].
    assert (Hin : In x (filter f l)) by (apply filter_In; auto).
    destruct (filter f l); [contradiction|]. simpl in H. lia.
  - intros H. rewrite filter_absent by exact H. reflexivity.
Qed.

Lemma rows_affected_present {A} (f : A -> bool) (l : list A) :
  (exists x, In x l /\ f x = true) -> (rows_affected (filter f l) =? 0) = false.
Proof.
  intros [x [Hin Hf]]. apply Z.eqb_neq. intros H.
  rewrite (proj1 (rows_affected_zero f l) H x Hin) in Hf. discriminate.
Qed.

Lemma existsb_absent {A} (f : A -> bool) (l : list A) :
  (forall x, In x l -> f x = false) -> existsb f l = false.
Proof.
  intros H. destruct (existsb f l) eqn:E; [|reflexivity].
  apply existsb_exists in E. destruct E as [x [Hin Hf]].
  rewrite (H x Hin) in Hf. discriminate.
Qed.

(** ** starQuery *)

Lemma starQuery_missing (s : QueryHistoryService) (user : SignedInUser)
    (UID : string) (w : World) :
  fault_schedule (store s) (clock w) = None ->
  find (owned_by (OrgId user) (UserId user) UID) (query_history (db w)) = None ->
  starQuery s user UID w
  = ((QueryHistoryDTO.zero, Some ErrQueryNotFound),
     {| db := db w; clock := S (clock w); log := log w |}).
Proof.
  intros H0 Hfind. unfold starQuery. open_session.
  rewrite (statement_run _ _ _ _ H0), Hfind. simpl.
  destruct (db w); reflexivity.
Qed.

Lemma starQuery_duplicate (s : QueryHistoryService) (user : SignedInUser)
    (UID : string) (w : World) (q : QueryHistory.t) :
  healthy s (clock w) 2 ->
  find (owned_by (OrgId user) (UserId user) UID) (query_history (db w)) = Some q ->
  existsb (star_of (UserId user) UID) (query_history_star (db w)) = true ->
  starQuery s user UID w
  = ((QueryHistoryDTO.zero, Some ErrQueryAlreadyStarred),
     {| db := db w; clock := S (S (clock w)); log := log w |}).
Proof.
  intros H Hfind Hstar. unfold starQuery. open_session.
  rewrite statement_run by (runs H). rewrite Hfind. simpl.
  rewrite statement_run by (runs H).
  simpl. rewrite Hstar. simpl. destruct (db w); reflexivity.
Qed.

Lemma starQuery_fresh (s : QueryHistoryService) (user : SignedInUser)
    (UID : string) (w : World) (q : QueryHistory.t) :
  healthy s (clock w) 2 ->
  find (owned_by (OrgId user) (UserId user) UID) (query_history (db w)) = Some q ->
  existsb (star_of (UserId user) UID) (query_history_star (db w)) = false ->
  starQuery s user UID w
  = ((dto_of q true, None),
     {| db := {| query_history := query_history (db w);
                 query_history_star :=
                   query_history_star (db w)
                   ++ [QueryHistoryStar.mk
                         (next_star_id (query_history_star (db w)))
                         UID (UserId user)] |};
        clock := S (S (clock w)); log := log w |}).
Proof.
  intros H Hfind Hstar. unfold starQuery. open_session.
  rewrite statement_run by (runs H). rewrite Hfind. simpl.
  rewrite statement_run by (runs H).
  simpl. rewrite Hstar. simpl. destruct (db w); reflexivity.
Qed.

Lemma query_visible_iff (user : SignedInUser) (UID : string) (d : DB) :
  query_visible user UID d
  <-> existsb (owned_by (OrgId user) (UserId user) UID) (query_history d) = true.
Proof. unfold query_visible. symmetry. apply existsb_exists. Qed.

Lemma starred_by_iff (user : SignedInUser) (UID : string) (d : DB) :
  starred_by user UID d
  <-> existsb (star_of (UserId user) UID) (query_history_star d) = true.
Proof. unfold starred_by. symmetry. apply existsb_exists. Qed.

Lemma not_visible_find (user : SignedInUser) (UID : string) (d : DB) :
  ~ query_visible user UID d ->
  find (owned_by (OrgId user) (UserId user) UID) (query_history d) = None.
Proof.
  intros H. apply find_absent. intros x Hx.
  destruct (owned_by _ _ _ x) eqn:E; [|reflexivity].
  exfalso. apply H. exists x. auto.
Qed.

Lemma visible_find (user : SignedInUser) (UID : string) (d : DB) :
  query_visible user UID d ->
  exists q, find (owned_by (OrgId user) (UserId user) UID) (query_history d) = Some q
            /\ In q (query_history d)
            /\ QueryHistory.OrgID q = OrgId user
            /\ QueryHistory.CreatedBy q = UserId user
            /\ QueryHistory.UID q = UID.
Proof.
  intros H. apply find_present in H. destruct H as [q [Hf [Hin Ho]]].
  exists q. unfold owned_by in Ho.
  apply andb_true_iff in Ho. destruct Ho as [Ho Hu].
  apply andb_true_iff in Ho. destruct Ho as [Ho Hc].
  apply Z.eqb_eq in Ho, Hc. apply String.eqb_eq in Hu. auto.
Qed.

Lemma not_starred_existsb (user : SignedInUser) (UID : string) (d : DB) :
  ~ starred_by user UID d ->
  existsb (star_of (UserId user) UID) (query_history_star d) = false.
Proof.
  intros H. apply not_true_is_false. intros E. apply H.
  now apply starred_by_iff.
Qed.

(** C2. [starQuery] fails with [ErrQueryNotFound] when no query row matches
    (OrgID, CreatedBy, UID); when the query exists and a star row for
    (user, uid) exists already, the insert violates the unique constraint
    and the call fails with [ErrQueryAlreadyStarred], the tables being left
    as they were; when the insert succeeds it returns the DTO of the query
    with [Starred = true], and the star row is in the table. *)
Theorem starQuery_outcomes (s : QueryHistoryService) (user : SignedInUser)
    (UID : string) (w : World) :
  healthy s (clock w) 2 ->
  (~ query_visible user UID (db w) ->
     fst (starQuery s user UID w) = (QueryHistoryDTO.zero, Some ErrQueryNotFound))
  /\ (query_visible user UID (db w) -> starred_by user UID (db w) ->
        fst (starQuery s user UID w)
        = (QueryHistoryDTO.zero, Some ErrQueryAlreadyStarred)
        /\ db (snd (starQuery s user UID w)) = db w)
  /\ (query_visible user UID (db w) -> ~ starred_by user UID (db w) ->
        snd (fst (starQuery s user UID w)) = None
        /\ QueryHistoryDTO.Starred (fst (fst (starQuery s user UID w))) = true
        /\ QueryHistoryDTO.UID (fst (fst (starQuery s user UID w))) = UID
        /\ starred_by user UID (db (snd (starQuery s user UID w)))).
Proof.
  intros H. split; [|split].
  - intros Hv. rewrite starQuery_missing; [reflexivity| |].
    + apply (healthy_at _ _ _ _ H). lia.
    + now apply not_visible_find.
  - intros Hv Hs. destruct (visible_find _ _ _ Hv) as [q [Hf _]].
    rewrite (starQuery_duplicate _ _ _ _ q H Hf); [split; reflexivity|].
    now apply starred_by_iff.
  - intros Hv Hs. destruct (visible_find _ _ _ Hv) as [q [Hf [_ [_ [_ Hu]]]]].
    rewrite (starQuery_fresh _ _ _ _ q H Hf (not_starred_existsb _ _ _ Hs)).
    simpl. repeat split; [exact Hu|].
    exists (QueryHistoryStar.mk (next_star_id (query_history_star (db w)))
              UID (UserId user)).
    split.
    + apply in_or_app. right. now left.
    + unfold star_of. simpl. now rewrite Z.eqb_refl, String.eqb_refl.
Qed.

Lemma no_faults_healthy (from n : nat) : healthy (service no_faults) from n.
Proof. intros k _. reflexivity. Qed.

Lemma starQuery_outcomes_witness :
  fst (starQuery (service no_faults) alice "q9" (world_of db1))
  = (QueryHistoryDTO.zero, Some ErrQueryNotFound)
  /\ fst (starQuery (service no_faults) alice "q1" (world_of db1))
     = (QueryHistoryDTO.zero, Some ErrQueryAlreadyStarred)
  /\ QueryHistoryDTO.Starred
       (fst (fst (starQuery (service no_faults) alice "q2" (world_of db1))))
     = true.
Proof.
  split; [|split].
  - apply (starQuery_outcomes (service no_faults) alice "q9" (world_of db1)
             (no_faults_healthy 0 2)).
    intros Hv. apply query_visible_iff in Hv. discriminate.
  - apply (starQuery_outcomes (service no_faults) alice "q1" (world_of db1)
             (no_faults_healthy 0 2)).
    + apply query_visible_iff. reflexivity.
    + apply starred_by_iff. reflexivity.
  - apply (starQuery_outcomes (service no_faults) alice "q2" (world_of db1)
             (no_faults_healthy 0 2)).
    + apply query_visible_iff. reflexivity.
    + intros Hs. apply starred_by_iff in Hs. discriminate.
Defined.

(** ** unstarQuery *)

Lemma unstarQuery_run (s : QueryHistoryService) (user : SignedInUser)
    (UID : string) (w : World) (q : QueryHistory.t) :
  healthy s (clock w) 2 ->
  find (owned_by (OrgId user) (UserId user) UID) (query_history (db w)) = Some q ->
  unstarQuery s user UID w
  = if rows_affected
         (filter (star_of (UserId user) UID) (query_history_star (db w))) =? 0
    then ((QueryHistoryDTO.zero, Some ErrStarredQueryNotFound),
          {| db := db w; clock := S (S (clock w)); log := log w |})
    else ((dto_of q false, None),
          {| db := {| query_history := query_history (db w);
                      query_history_star :=
                        filter (fun st => negb (star_of (UserId user) UID st))
                          (query_history_star (db w)) |};
             clock := S (S (clock w)); log := log w |}).
Proof.
  intros H Hfind. unfold unstarQuery. open_session.
  rewrite statement_run by (runs H). rewrite Hfind. simpl.
  rewrite statement_run by (runs H). simpl.
  destruct (rows_affected _ =? 0); simpl; destruct (db w); reflexivity.
Qed.

Lemma unstarQuery_masked (s : QueryHistoryService) (user : SignedInUser)
    (UID : string) (w : World) (q : QueryHistory.t) (f : Fault) :
  fault_schedule (store s) (clock w) = None ->
  find (owned_by (OrgId user) (UserId user) UID) (query_history (db w)) = Some q ->
  fault_schedule (store s) (S (clock w)) = Some f ->
  unstarQuery s user UID w
  = ((QueryHistoryDTO.zero,
      Some (if fault_rows f =? 0 then ErrStarredQueryNotFound
            else ErrStore (fault_err f))),
     {| db := db w; clock := S (S (clock w)); log := log w |}).
Proof.
  intros H0 Hfind H1. unfold unstarQuery. open_session.
  rewrite (statement_run _ _ _ _ H0), Hfind. simpl.
  rewrite (statement_fault _ _ _ _ f) by exact H1. simpl.
  destruct (fault_rows f =? 0); simpl; destruct (db w); reflexivity.
Qed.

(** C9. In [unstarQuery] the test [id == 0] comes before the test of the
    delete's error: whenever the delete of the star row reports an error
    together with zero affected rows, the call returns
    [ErrStarredQueryNotFound] and the error of the store is not returned. *)
Theorem unstarQuery_zero_rows_hides_store_error (s : QueryHistoryService)
    (user : SignedInUser) (UID : string) (w : World) (f : Fault) :
  fault_schedule (store s) (clock w) = None ->
  query_visible user UID (db w) ->
  fault_schedule (store s) (S (clock w)) = Some f ->
  fault_rows f = 0 ->
  fst (unstarQuery s user UID w)
  = (QueryHistoryDTO.zero, Some ErrStarredQueryNotFound)
  /\ snd (fst (unstarQuery s user UID w)) <> Some (ErrStore (fault_err f)).
Proof.
  intros H0 Hv H1 Hrows.
  destruct (visible_find _ _ _ Hv) as [q [Hf _]].
  rewrite (unstarQuery_masked _ _ _ _ q f H0 Hf H1), Hrows. simpl.
  split; [reflexivity | discriminate].
Qed.

Lemma unstarQuery_zero_rows_hides_store_error_witness :
  fst (unstarQuery (service (fail_at 1 driver_down)) alice "q1" (world_of db1))
  = (QueryHistoryDTO.zero, Some ErrStarredQueryNotFound)
  /\ snd (fst (unstarQuery (service (fail_at 1 driver_down)) alice "q1"
                 (world_of db1)))
     <> Some (ErrStore (DriverErr 1)).
Proof.
  apply (unstarQuery_zero_rows_hides_store_error
           (service (fail_at 1 driver_down)) alice "q1" (world_of db1)
           driver_down).
  - reflexivity.
  - apply query_visible_iff. reflexivity.
  - reflexivity.
  - reflexivity.
Defined.

(** When the failed delete reports a count other than zero, the error of
    the store is returned. *)
Lemma unstarQuery_nonzero_rows_store_error (s : QueryHistoryService)
    (user : SignedInUser) (UID : string) (w : World) (f : Fault) :
  fault_schedule (store s) (clock w) = None ->
  query_visible user UID (db w) ->
  fault_schedule (store s) (S (clock w)) = Some f ->
  fault_rows f <> 0 ->
  fst (unstarQuery s user UID w)
  = (QueryHistoryDTO.zero, Some (ErrStore (fault_err f))).
Proof.
  intros H0 Hv H1 Hrows.
  destruct (visible_find _ _ _ Hv) as [q [Hf _]].
  rewrite (unstarQuery_masked _ _ _ _ q f H0 Hf H1).
  apply Z.eqb_neq in Hrows. now rewrite Hrows.
Qed.

Lemma healthy_shift (s : QueryHistoryService) (from n k m : nat) :
  healthy s from n -> (from <= k)%nat -> (k + m <= from + n)%nat ->
  healthy s k m.
Proof. intros H Hk Hm j Hj. apply H. lia. Qed.

(** C7. For a query the caller can see, [starQuery] followed by
    [unstarQuery] for the same (user, uid): the star succeeds when the query
    was not starred, and in any case the unstar succeeds, returns a DTO with
    [Starred = false] and leaves no star row for (user, uid).
    [unstarQuery] without a star row for (user, uid) fails with
    [ErrStarredQueryNotFound]. *)
Theorem star_then_unstar (s : QueryHistoryService) (user : SignedInUser)
    (UID : string) (w : World) :
  query_visible user UID (db w) ->
  (healthy s (clock w) 4 ->
     (~ starred_by user UID (db w) ->
        snd (fst (starQuery s user UID w)) = None
        /\ QueryHistoryDTO.Starred (fst (fst (starQuery s user UID w))) = true)
     /\ snd (fst (unstarQuery s user UID (snd (starQuery s user UID w)))) = None
     /\ QueryHistoryDTO.Starred
          (fst (fst (unstarQuery s user UID (snd (starQuery s user UID w)))))
        = false
     /\ ~ starred_by user UID
            (db (snd (unstarQuery s user UID (snd (starQuery s user UID w))))))
  /\ (healthy s (clock w) 2 -> ~ starred_by user UID (db w) ->
        fst (unstarQuery s user UID w)
        = (QueryHistoryDTO.zero, Some ErrStarredQueryNotFound)).
Proof.
  intros Hv. destruct (visible_find _ _ _ Hv) as [q [Hf _]]. split.
  - intros H.
    assert (H2 : healthy s (clock w) 2) by (apply (healthy_shift _ _ _ _ _ H); lia).
    split.
    { intros Hs. rewrite (starQuery_fresh _ _ _ _ q H2 Hf
                            (not_starred_existsb _ _ _ Hs)).
      split; reflexivity. }
    assert (Hafter : exists w1, snd (starQuery s user UID w) = w1
                       /\ clock w1 = S (S (clock w))
                       /\ query_history (db w1) = query_history (db w)
                       /\ starred_by user UID (db w1)).
    { destruct (existsb (star_of (UserId user) UID) (query_history_star (db w)))
        eqn:E.
      - rewrite (starQuery_duplicate _ _ _ _ q H2 Hf E). eexists.
        split; [reflexivity|]. simpl. repeat split. now apply starred_by_iff.
      - rewrite (starQuery_fresh _ _ _ _ q H2 Hf E). eexists.
        split; [reflexivity|]. simpl. repeat split.
        exists (QueryHistoryStar.mk (next_star_id (query_history_star (db w)))
                  UID (UserId user)).
        split; [apply in_or_app; right; now left|].
        unfold star_of. simpl. now rewrite Z.eqb_refl, String.eqb_refl. }
    destruct Hafter as [w1 [-> [Hc [Hq Hs1]]]].
    assert (H1 : healthy s (clock w1) 2)
      by (apply (healthy_shift _ _ _ _ _ H); lia).
    rewrite (unstarQuery_run _ _ _ _ q H1) by (rewrite Hq; exact Hf).
    rewrite (rows_affected_present _ _ Hs1). simpl. repeat split.
    intros [st [Hin Hst]]. simpl in Hin.
    apply filter_negb_clears in Hin. congruence.
  - intros H Hs. rewrite (unstarQuery_run _ _ _ _ q H Hf).
    assert (E : rows_affected
                  (filter (star_of (UserId user) UID)
                     (query_history_star (db w))) = 0).
    { apply rows_affected_zero. intros x Hx.
      apply not_true_is_false. intros E. apply Hs. exists x. auto. }
    rewrite E. reflexivity.
Qed.

Lemma star_then_unstar_witness :
  snd (fst (unstarQuery (service no_faults) alice "q2"
              (snd (starQuery (service no_faults) alice "q2" (world_of db1)))))
  = None
  /\ fst (unstarQuery (service no_faults) alice "q2" (world_of db1))
     = (QueryHistoryDTO.zero, Some ErrStarredQueryNotFound).
Proof.
  assert (Hv : query_visible alice "q2" (db (world_of db1)))
    by (apply query_visible_iff; reflexivity).
  split.
  - apply (star_then_unstar (service no_faults) alice "q2" (world_of db1) Hv).
    apply no_faults_healthy.
  - apply (star_then_unstar (service no_faults) alice "q2" (world_of db1) Hv).
    + apply no_faults_healthy.
    + intros Hs. apply starred_by_iff in Hs. discriminate.
Defined.

(** ** deleteQuery *)

Lemma deleteQuery_run (s : QueryHistoryService) (user : SignedInUser)
    (UID : string) (w : World) :
  fault_schedule (store s) (S (clock w)) = None ->
  deleteQuery s user UID w
  = let stars :=
      match fault_schedule (store s) (clock w) with
      | Some _ => query_history_star (db w)
      | None => filter (fun st => negb (star_of (UserId user) UID st))
                  (query_history_star (db w))
      end in
    let lg :=
      match fault_schedule (store s) (clock w) with
      | Some f => log w ++ [unstar_failed_entry user UID (fault_err f)]
      | None => log w
      end in
    let n := rows_affected
               (filter (owned_by (OrgId user) (UserId user) UID)
                  (query_history (db w))) in
    if n =? 0
    then ((0, Some ErrQueryNotFound),
          {| db := db w; clock := S (S (clock w)); log := lg |})
    else ((n, None),
          {| db := {| query_history :=
                        filter (fun q => negb (owned_by (OrgId user) (UserId user) UID q))
                          (query_history (db w));
                      query_history_star := stars |};
             clock := S (S (clock w)); log := lg |}).
Proof.
  intros H1. unfold deleteQuery, unstar_failed_entry. open_session.
  destruct (fault_schedule (store s) (clock w)) as [f|] eqn:H0.
  - rewrite (statement_fault _ _ _ _ f H0). simpl.
    rewrite statement_run by exact H1. simpl.
    destruct (rows_affected _ =? 0); simpl; destruct (db w); reflexivity.
  - rewrite (statement_run _ _ _ _ H0). simpl.
    rewrite statement_run by exact H1. simpl.
    destruct (rows_affected _ =? 0); simpl; destruct (db w); reflexivity.
Qed.

(** C1, as the code has it. The delete of the star row comes first; when it
    fails the failure is logged and the call goes on. Then the query row
    matching (OrgID, CreatedBy, UID) is deleted: with zero rows affected the
    call fails with [ErrQueryNotFound] and both tables are as before; on
    success no matching query row remains, and no star row of the caller
    for the query remains provided the delete of the star row did not
    fail. *)
Theorem deleteQuery_spec (s : QueryHistoryService) (user : SignedInUser)
    (UID : string) (w : World) :
  fault_schedule (store s) (S (clock w)) = None ->
  (forall f, fault_schedule (store s) (clock w) = Some f ->
     log (snd (deleteQuery s user UID w))
     = log w ++ [unstar_failed_entry user UID (fault_err f)])
  /\ (~ query_visible user UID (db w) ->
        fst (deleteQuery s user UID w) = (0, Some ErrQueryNotFound)
        /\ db (snd (deleteQuery s user UID w)) = db w)
  /\ (query_visible user UID (db w) ->
        snd (fst (deleteQuery s user UID w)) = None
        /\ ~ query_visible user UID (db (snd (deleteQuery s user UID w)))
        /\ (fault_schedule (store s) (clock w) = None ->
              ~ starred_by user UID (db (snd (deleteQuery s user UID w))))).
Proof.
  intros H1. rewrite (deleteQuery_run _ _ _ _ H1). cbv zeta. split; [|split].
  - intros f H0. rewrite H0.
    destruct (rows_affected _ =? 0); reflexivity.
  - intros Hv.
    assert (E : rows_affected
                  (filter (owned_by (OrgId user) (UserId user) UID)
                     (query_history (db w))) = 0).
    { apply rows_affected_zero. intros x Hx.
      apply not_true_is_false. intros E. apply Hv. exists x. auto. }
    rewrite E. simpl. split; reflexivity.
  - intros Hv. rewrite (rows_affected_present _ _ Hv). simpl.
    split; [reflexivity|]. split.
    + intros [q [Hin Hq]]. simpl in Hin.
      apply filter_negb_clears in Hin. congruence.
    + intros H0 [st [Hin Hst]]. rewrite H0 in Hin. simpl in Hin.
      apply filter_negb_clears in Hin. congruence.
Qed.

Lemma deleteQuery_spec_witness :
  log (snd (deleteQuery (service (fail_at 0 driver_down)) alice "q1"
              (world_of db1)))
  = [unstar_failed_entry alice "q1" (DriverErr 1)]
  /\ fst (deleteQuery (service no_faults) alice "q9" (world_of db1))
     = (0, Some ErrQueryNotFound)
  /\ ~ starred_by alice "q1"
         (db (snd (deleteQuery (service no_faults) alice "q1" (world_of db1)))).
Proof.
  split; [|split].
  - apply (proj1 (deleteQuery_spec (service (fail_at 0 driver_down)) alice
                      "q1" (world_of db1) eq_refl) driver_down).
    reflexivity.
  - apply (deleteQuery_spec (service no_faults) alice "q9" (world_of db1)
             eq_refl).
    intros Hv. apply query_visible_iff in Hv. discriminate.
  - apply (deleteQuery_spec (service no_faults) alice "q1" (world_of db1)
             eq_refl).
    + apply query_visible_iff. reflexivity.
    + reflexivity.
Defined.

(** C1 as stated fails: the delete of the star row fails (and is logged),
    the delete of the query row succeeds, the transaction commits, and the
    star row of the caller for the deleted query is still in the table. *)
Lemma deleteQuery_dangling_star :
  fst (deleteQuery (service (fail_at 0 driver_down)) alice "q1" (world_of db1))
  = (1, None)
  /\ ~ query_visible alice "q1"
         (db (snd (deleteQuery (service (fail_at 0 driver_down)) alice "q1"
                     (world_of db1))))
  /\ starred_by alice "q1"
       (db (snd (deleteQuery (service (fail_at 0 driver_down)) alice "q1"
                   (world_of db1)))).
Proof.
  split; [reflexivity|]. split.
  - intros Hv. apply query_visible_iff in Hv. discriminate.
  - apply starred_by_iff. reflexivity.
Qed.

(** ** patchQueryComment *)

Lemma patchQueryComment_missing (s : QueryHistoryService) (user : SignedInUser)
    (UID : string) (cmd : PatchQueryCommentInQueryHistoryCommand) (w : World) :
  fault_schedule (store s) (clock w) = None ->
  ~ query_visible user UID (db w) ->
  patchQueryComment s user UID cmd w
  = ((QueryHistoryDTO.zero, Some ErrQueryNotFound),
     {| db := db w; clock := S (clock w); log := log w |}).
Proof.
  intros H0 Hv. unfold patchQueryComment. open_session.
  rewrite (statement_run _ _ _ _ H0), (not_visible_find _ _ _ Hv). simpl.
  destruct (db w); reflexivity.
Qed.

Lemma patchQueryComment_run (s : QueryHistoryService) (user : SignedInUser)
    (UID : string) (cmd : PatchQueryCommentInQueryHistoryCommand) (w : World)
    (q : QueryHistory.t) :
  healthy s (clock w) 3 ->
  find (owned_by (OrgId user) (UserId user) UID) (query_history (db w)) = Some q ->
  patchQueryComment s user UID cmd w
  = ((dto_of (QueryHistory.with_Comment (Comment cmd) q)
        (existsb (star_of (UserId user) UID) (query_history_star (db w))), None),
     {| db := {| query_history :=
                   map (fun r =>
                          if QueryHistory.ID r =? QueryHistory.ID q
                          then update_row
                                 (QueryHistory.with_Comment (Comment cmd) q) r
                          else r) (query_history (db w));
                 query_history_star := query_history_star (db w) |};
        clock := S (S (S (clock w))); log := log w |}).
Proof.
  intros H Hfind. unfold patchQueryComment. open_session.
  rewrite statement_run by (runs H). rewrite Hfind. simpl.
  rewrite statement_run by (runs H). simpl.
  rewrite statement_run by (runs H). reflexivity.
Qed.

Lemma pick_string_same (x : string) : pick_string x x = x.
Proof. unfold pick_string. destruct (String.eqb x ""); reflexivity. Qed.

Lemma pick_int_same (x : Z) : pick_int x x = x.
Proof. unfold pick_int. destruct (x =? 0); reflexivity. Qed.

Lemma update_row_comment (c : string) (q : QueryHistory.t) :
  c <> "" ->
  update_row (QueryHistory.with_Comment c q) q = QueryHistory.with_Comment c q.
Proof.
  intros Hc. unfold update_row, QueryHistory.with_Comment. simpl.
  rewrite !pick_string_same, !pick_int_same. f_equal.
  unfold pick_string. apply String.eqb_neq in Hc. now rewrite Hc.
Qed.

Lemma update_row_empty_comment (q : QueryHistory.t) :
  update_row (QueryHistory.with_Comment "" q) q = q.
Proof.
  unfold update_row, QueryHistory.with_Comment. simpl.
  rewrite !pick_string_same, !pick_int_same. destruct q; reflexivity.
Qed.

Lemma same_id_same_row (rows : list QueryHistory.t) (q r : QueryHistory.t) :
  NoDup (map QueryHistory.ID rows) -> In q rows -> In r rows ->
  QueryHistory.ID r = QueryHistory.ID q -> r = q.
Proof.
  induction rows as [|a rows IH]; simpl; intros Hnd Hq Hr Hid; [contradiction|].
  inversion Hnd as [|x l Hnotin Hnd']; subst.
  destruct Hq as [->|Hq], Hr as [->|Hr]; auto.
  - exfalso. apply Hnotin. rewrite <- Hid. now apply in_map.
  - exfalso. apply Hnotin. rewrite Hid. now apply in_map.
Qed.

(** With a comment that is not empty the row of the query gets the comment
    and nothing else changes, in the row or in the tables. *)
Lemma patchQueryComment_persists (s : QueryHistoryService) (user : SignedInUser)
    (UID : string) (cmd : PatchQueryCommentInQueryHistoryCommand) (w : World)
    (q : QueryHistory.t) :
  healthy s (clock w) 3 ->
  NoDup (map QueryHistory.ID (query_history (db w))) ->
  find (owned_by (OrgId user) (UserId user) UID) (query_history (db w)) = Some q ->
  Comment cmd <> "" ->
  fst (patchQueryComment s user UID cmd w)
  = (dto_of (QueryHistory.with_Comment (Comment cmd) q)
       (existsb (star_of (UserId user) UID) (query_history_star (db w))), None)
  /\ query_history (db (snd (patchQueryComment s user UID cmd w)))
     = map (fun r => if QueryHistory.ID r =? QueryHistory.ID q
                     then QueryHistory.with_Comment (Comment cmd) r else r)
         (query_history (db w))
  /\ query_history_star (db (snd (patchQueryComment s user UID cmd w)))
     = query_history_star (db w).
Proof.
  intros H Hnd Hfind Hc. rewrite (patchQueryComment_run _ _ _ _ _ q H Hfind).
  simpl. repeat split. apply map_ext_in. intros r Hr.
  destruct (QueryHistory.ID r =? QueryHistory.ID q) eqn:E; [|reflexivity].
  apply Z.eqb_eq in E. apply find_some in Hfind. destruct Hfind as [Hq _].
  rewrite (same_id_same_row _ q r Hnd Hq Hr E).
  now apply update_row_comment.
Qed.

(** C8 at an empty comment. The row of q1 carries the comment "old"; the
    patch with the empty comment returns a DTO with the empty comment, and
    the row in the table still carries "old": the update writes the fields
    of the bean that are not zero, and the empty string is. *)
Theorem patchQueryComment_empty_comment_not_stored :
  fst (patchQueryComment (service no_faults) alice "q1" {| Comment := "" |}
         (world_of db1))
  = (dto_of (QueryHistory.with_Comment "" q1) true, None)
  /\ db (snd (patchQueryComment (service no_faults) alice "q1"
                {| Comment := "" |} (world_of db1)))
     = db1
  /\ QueryHistory.Comment q1 = "old".
Proof. repeat split. Qed.

(** The same for every row and every state of the tables. *)
Lemma patchQueryComment_empty_comment_keeps_tables (s : QueryHistoryService)
    (user : SignedInUser) (UID : string) (w : World) (q : QueryHistory.t) :
  healthy s (clock w) 3 ->
  NoDup (map QueryHistory.ID (query_history (db w))) ->
  find (owned_by (OrgId user) (UserId user) UID) (query_history (db w)) = Some q ->
  QueryHistoryDTO.Comment
    (fst (fst (patchQueryComment s user UID {| Comment := "" |} w))) = ""
  /\ db (snd (patchQueryComment s user UID {| Comment := "" |} w)) = db w.
Proof.
  intros H Hnd Hfind. rewrite (patchQueryComment_run _ _ _ _ _ q H Hfind).
  simpl. split; [reflexivity|].
  replace (map _ (query_history (db w))) with (query_history (db w)).
  - destruct (db w); reflexivity.
  - rewrite <- (map_id (query_history (db w))) at 1.
    apply map_ext_in. intros r Hr.
    destruct (QueryHistory.ID r =? QueryHistory.ID q) eqn:E; [|reflexivity].
    apply Z.eqb_eq in E. apply find_some in Hfind. destruct Hfind as [Hq _].
    rewrite (same_id_same_row _ q r Hnd Hq Hr E).
    symmetry. apply update_row_empty_comment.
Qed.

(** ** searchQueries *)

Lemma searchQueries_run (s : QueryHistoryService) (user : SignedInUser)
    (query : SearchInQueryHistoryQuery) (w : World) :
  DatasourceUIDs query <> [] ->
  fault_schedule (store s) (clock w) = None ->
  searchQueries s user query w
  = (match run_search (dialect (store s)) (search_statement user query) (db w) with
     | (_, Some e) => ([], Some (ErrStore e))
     | (rows, None) => (rows, None)
     end,
     {| db := db w; clock := S (clock w); log := log w |}).
Proof.
  intros Hds H0. unfold searchQueries.
  destruct (DatasourceUIDs query) as [|u us] eqn:E; [contradiction|].
  open_session. rewrite (statement_run _ _ _ _ H0). simpl.
  destruct (run_search _ _ _) as [rows [e|]]; simpl; destruct (db w); reflexivity.
Qed.

Lemma searchQueries_fault (s : QueryHistoryService) (user : SignedInUser)
    (query : SearchInQueryHistoryQuery) (w : World) (f : Fault) :
  DatasourceUIDs query <> [] ->
  fault_schedule (store s) (clock w) = Some f ->
  searchQueries s user query w
  = (([], Some (ErrStore (fault_err f))),
     {| db := db w; clock := S (clock w); log := log w |}).
Proof.
  intros Hds H0. unfold searchQueries.
  destruct (DatasourceUIDs query) as [|u us] eqn:E; [contradiction|].
  open_session. rewrite (statement_fault _ _ _ _ f H0). reflexivity.
Qed.

(** C4. With an empty [DatasourceUIDs] the search fails with the
    invalid-argument error and sends no statement to the store (the world,
    its statement clock included, is as before); with a set that is not
    empty the call sends its statement and never returns that error. *)
Theorem searchQueries_requires_datasource (s : QueryHistoryService)
    (user : SignedInUser) (query : SearchInQueryHistoryQuery) (w : World) :
  (DatasourceUIDs query = [] ->
     searchQueries s user query w
     = (([], Some (ErrorsNew no_datasource_msg)), w))
  /\ (DatasourceUIDs query <> [] ->
        snd (fst (searchQueries s user query w))
        <> Some (ErrorsNew no_datasource_msg)
        /\ clock (snd (searchQueries s user query w)) = S (clock w)).
Proof.
  split.
  - intros E. unfold searchQueries. rewrite E. reflexivity.
  - intros Hds. destruct (fault_schedule (store s) (clock w)) as [f|] eqn:H0.
    + rewrite (searchQueries_fault _ _ _ _ f Hds H0). simpl.
      split; [discriminate | reflexivity].
    + rewrite (searchQueries_run _ _ _ _ Hds H0).
      destruct (run_search _ _ _) as [rows [e|]]; simpl;
        (split; [discriminate | reflexivity]).
Qed.

Lemma searchQueries_requires_datasource_witness :
  searchQueries (service no_faults) alice (search_q [] false "" 0 0)
    (world_of db1)
  = (([], Some (ErrorsNew no_datasource_msg)), world_of db1)
  /\ snd (fst (searchQueries (service no_faults) alice
                 (search_q ["ds1"] false "" 0 0) (world_of db1)))
     <> Some (ErrorsNew no_datasource_msg).
Proof.
  split.
  - apply (searchQueries_requires_datasource (service no_faults) alice
             (search_q [] false "" 0 0) (world_of db1)).
    reflexivity.
  - apply (searchQueries_requires_datasource (service no_faults) alice
             (search_q ["ds1"] false "" 0 0) (world_of db1)).
    discriminate.
Defined.

(** *** The join *)

Lemma join_row_in (j : JoinKind) (stars : list QueryHistoryStar.t)
    (q : QueryHistory.t) (r : JoinedRow) :
  In r (join_row j stars q) ->
  fst r = q
  /\ match snd r with
     | Some st => In st stars /\ join_on q st = true
     | None => j = LEFT_JOIN /\ forall st, In st stars -> join_on q st = false
     end.
Proof.
  unfold join_row. intros H.
  destruct (filter (join_on q) stars) as [|m ms] eqn:E.
  - destruct j; simpl in H; [contradiction|].
    destruct H as [<-|[]]. simpl. repeat split.
    intros st Hst. destruct (join_on q st) eqn:Ej; [|reflexivity].
    assert (Hin : In st (filter (join_on q) stars)) by (apply filter_In; auto).
    rewrite E in Hin. contradiction.
  - assert (Hm : In r (map (fun st => (q, Some st)) (m :: ms)))
      by (destruct j; exact H).
    apply in_map_iff in Hm. destruct Hm as [st [<- Hst]]. simpl.
    rewrite <- E in Hst. apply filter_In in Hst. tauto.
Qed.

Lemma join_row_matched (j : JoinKind) (stars : list QueryHistoryStar.t)
    (q : QueryHistory.t) (st : QueryHistoryStar.t) :
  In st stars -> join_on q st = true -> In (q, Some st) (join_row j stars q).
Proof.
  intros Hin Hon. unfold join_row.
  assert (Hf : In st (filter (join_on q) stars)) by (apply filter_In; auto).
  destruct (filter (join_on q) stars) as [|m ms] eqn:E; [contradiction|].
  destruct j; apply in_map_iff; exists st; auto.
Qed.

Lemma join_in (j : JoinKind) (d : DB) (r : JoinedRow) :
  In r (join j d) ->
  In (fst r) (query_history d)
  /\ match snd r with
     | Some st => In st (query_history_star d) /\ join_on (fst r) st = true
     | None => j = LEFT_JOIN
               /\ forall st, In st (query_history_star d) ->
                             join_on (fst r) st = false
     end.
Proof.
  unfold join. intros H. apply in_flat_map in H. destruct H as [q [Hq Hr]].
  apply join_row_in in Hr. destruct Hr as [<- Hr]. auto.
Qed.

Lemma join_matched (j : JoinKind) (d : DB) (q : QueryHistory.t)
    (st : QueryHistoryStar.t) :
  In q (query_history d) -> In st (query_history_star d) ->
  join_on q st = true -> In (q, Some st) (join j d).
Proof.
  intros Hq Hst Hon. unfold join. apply in_flat_map. exists q.
  split; [exact Hq|]. now apply join_row_matched.
Qed.

(** *** ORDER BY *)

Lemma comes_first_total (o : OrderDir) (a b : Z) :
  comes_first o a b = false -> comes_first o b a = true.
Proof. destruct o; simpl; intros H; apply Z.leb_gt in H; apply Z.leb_le; lia. Qed.

Lemma row_before_trans (o : OrderDir) (a b c : JoinedRow) :
  row_before o a b -> row_before o b c -> row_before o a c.
Proof.
  unfold row_before. destruct o; simpl; intros H1 H2;
    apply Z.leb_le in H1, H2; apply Z.leb_le; lia.
Qed.

Lemma insert_row_perm (o : OrderDir) (r : JoinedRow) (l : list JoinedRow) :
  Permutation (insert_row o r l) (r :: l).
Proof.
  induction l as [|x t IH]; simpl; [apply Permutation_refl|].
  destruct (comes_first o (created_at r) (created_at x)).
  - apply Permutation_refl.
  - apply perm_trans with (x :: r :: t).
    + now apply perm_skip.
    + apply perm_swap.
Qed.

Lemma order_by_perm (o : OrderDir) (l : list JoinedRow) :
  Permutation (order_by o l) l.
Proof.
  induction l as [|r l IH]; simpl; [apply perm_nil|].
  apply perm_trans with (r :: order_by o l).
  - apply insert_row_perm.
  - now apply perm_skip.
Qed.

Lemma insert_row_sorted (o : OrderDir) (r : JoinedRow) (l : list JoinedRow) :
  StronglySorted (row_before o) l ->
  StronglySorted (row_before o) (insert_row o r l).
Proof.
  induction l as [|x t IH]; simpl; intros Hs.
  - constructor; constructor.
  - inversion Hs as [|y l' Ht Hall]; subst.
    destruct (comes_first o (created_at r) (created_at x)) eqn:E.
    + constructor; [exact Hs|]. constructor; [exact E|].
      eapply Forall_impl; [|exact Hall].
      intros z Hz. eapply row_before_trans; [exact E | exact Hz].
    + constructor; [now apply IH|].
      apply (Permutation_Forall (Permutation_sym (insert_row_perm o r t))).
      constructor; [|exact Hall]. now apply comes_first_total.
Qed.

Lemma order_by_sorted (o : OrderDir) (l : list JoinedRow) :
  StronglySorted (row_before o) (order_by o l).
Proof.
  induction l as [|r l IH]; simpl; [constructor|].
  now apply insert_row_sorted.
Qed.

Lemma order_by_in (o : OrderDir) (l : list JoinedRow) (r : JoinedRow) :
  In r (order_by o l) <-> In r l.
Proof.
  split; apply Permutation_in;
    [apply order_by_perm | apply Permutation_sym, order_by_perm].
Qed.

(** *** LIMIT and OFFSET *)

Lemma firstn_in {A} (n : nat) (l : list A) (x : A) :
  In x (firstn n l) -> In x l.
Proof.
  intros H. rewrite <- (firstn_skipn n l). apply in_or_app. now left.
Qed.

Lemma skipn_in {A} (n : nat) (l : list A) (x : A) :
  In x (skipn n l) -> In x l.
Proof.
  intros H. rewrite <- (firstn_skipn n l). apply in_or_app. now right.
Qed.

Lemma limit_offset_in {A} (lim off : Z) (l : list A) (x : A) :
  In x (limit_offset lim off l) -> In x l.
Proof. unfold limit_offset. intros H. eapply skipn_in, firstn_in, H. Qed.

Lemma limit_offset_map {A B} (f : A -> B) (lim off : Z) (l : list A) :
  map f (limit_offset lim off l) = limit_offset lim off (map f l).
Proof. unfold limit_offset. now rewrite <- firstn_map, <- skipn_map. Qed.

Lemma StronglySorted_firstn {A} (R : A -> A -> Prop) (n : nat) (l : list A) :
  StronglySorted R l -> StronglySorted R (firstn n l).
Proof.
  revert n. induction l as [|a l IH]; intros [|n] Hs; simpl; try constructor.
  - inversion Hs; subst. now apply IH.
  - inversion Hs as [|x l' Hl Hall]; subst.
    apply Forall_forall. intros y Hy.
    rewrite Forall_forall in Hall. apply Hall. eapply firstn_in, Hy.
Qed.

Lemma StronglySorted_skipn {A} (R : A -> A -> Prop) (n : nat) (l : list A) :
  StronglySorted R l -> StronglySorted R (skipn n l).
Proof.
  revert n. induction l as [|a l IH]; intros [|n] Hs; simpl; auto.
  inversion Hs; subst. now apply IH.
Qed.

Lemma StronglySorted_map {A B} (R : B -> B -> Prop) (f : A -> B) (l : list A) :
  StronglySorted (fun a b => R (f a) (f b)) l -> StronglySorted R (map f l).
Proof.
  induction 1 as [|a l Hs IH Hall]; simpl; constructor; auto.
  apply Forall_forall. intros y Hy. apply in_map_iff in Hy.
  destruct Hy as [x [<- Hx]]. rewrite Forall_forall in Hall. now apply Hall.
Qed.

(** Every DTO returned by the search is the projection of a joined row that
    passes the [WHERE] clause. *)
Lemma searchQueries_rows (s : QueryHistoryService) (user : SignedInUser)
    (query : SearchInQueryHistoryQuery) (w : World) (dto : QueryHistoryDTO.t) :
  In dto (fst (fst (searchQueries s user query w))) ->
  exists r,
    In r (join (sql_join (search_statement user query)) (db w))
    /\ where_clause (dialect (store s)) (search_statement user query) r = true
    /\ dto = select_row (sql_join (search_statement user query)) r.
Proof.
  intros H.
  destruct (DatasourceUIDs query) as [|u us] eqn:E.
  { unfold searchQueries in H. rewrite E in H. contradiction. }
  assert (Hds : DatasourceUIDs query <> []) by (rewrite E; discriminate).
  destruct (fault_schedule (store s) (clock w)) as [f|] eqn:H0.
  { rewrite (searchQueries_fault _ _ _ _ f Hds H0) in H. contradiction. }
  rewrite (searchQueries_run _ _ _ _ Hds H0) in H.
  unfold run_search in H.
  assert (Hin : In dto
                  (map (select_row (sql_join (search_statement user query)))
                     (limit_offset (sql_limit (search_statement user query))
                        (sql_offset (search_statement user query))
                        (matching_rows (dialect (store s))
                           (search_statement user query) (db w))))).
  { destruct (sql_offset (search_statement user query) <? 0);
      [destruct (NegativeOffset (dialect (store s)))|]; simpl in H;
      solve [exact H | contradiction]. }
  apply in_map_iff in Hin. destruct Hin as [r [Hr Hin]].
  apply limit_offset_in in Hin. unfold matching_rows in Hin.
  apply order_by_in in Hin. apply filter_In in Hin.
  exists r. destruct Hin. auto.
Qed.

Lemma join_on_eq (q : QueryHistory.t) (st : QueryHistoryStar.t) :
  join_on q st = true <-> QueryHistoryStar.QueryUID st = QueryHistory.UID q.
Proof. unfold join_on. apply String.eqb_eq. Qed.

(** The ["starred"] column of a joined row under the left join. *)
Lemma left_join_starred (d : DB) (r : JoinedRow) :
  In r (join LEFT_JOIN d) ->
  (starred_column LEFT_JOIN r = true
   <-> exists st, In st (query_history_star d)
                  /\ join_on (fst r) st = true).
Proof.
  intros H. apply join_in in H. destruct H as [_ H]. simpl.
  destruct (snd r) as [st|].
  - split; [intros _; exists st; exact H | reflexivity].
  - destruct H as [_ H]. split; [discriminate|].
    intros [st [Hin Hon]]. rewrite (H st Hin) in Hon. discriminate.
Qed.

(** C5. With [OnlyStarred = true] (inner join, ["starred"] the true literal)
    every DTO returned has [Starred = true]; with [OnlyStarred = false]
    (left join) the [Starred] of every DTO returned is true exactly when a
    star row matches the join condition, that is, has the DTO's uid as its
    [query_uid]. *)
Theorem searchQueries_starred (s : QueryHistoryService) (user : SignedInUser)
    (query : SearchInQueryHistoryQuery) (w : World) :
  (sql_join (search_statement user query)
   = if OnlyStarred query then INNER_JOIN else LEFT_JOIN)
  /\ (OnlyStarred query = true ->
        forall dto, In dto (fst (fst (searchQueries s user query w))) ->
                    QueryHistoryDTO.Starred dto = true)
  /\ (OnlyStarred query = false ->
        forall dto, In dto (fst (fst (searchQueries s user query w))) ->
                    (QueryHistoryDTO.Starred dto = true
                     <-> exists st, In st (query_history_star (db w))
                                    /\ QueryHistoryStar.QueryUID st
                                       = QueryHistoryDTO.UID dto)).
Proof.
  split; [reflexivity|]. split.
  - intros Ho dto H. apply searchQueries_rows in H.
    destruct H as [r [_ [_ ->]]]. simpl. now rewrite Ho.
  - intros Ho dto H. apply searchQueries_rows in H.
    destruct H as [r [Hr [_ ->]]]. simpl in *. rewrite Ho in *.
    rewrite (left_join_starred _ _ Hr). split.
    + intros [st [Hin Hon]]. exists st. split; [exact Hin|].
      now apply join_on_eq.
    + intros [st [Hin Hon]]. exists st. split; [exact Hin|].
      now apply join_on_eq.
Qed.

Lemma searchQueries_starred_witness :
  fst (searchQueries (service no_faults) alice
         (search_q ["ds1"; "ds2"] true "time-asc" 1 10) (world_of db1))
  = ([dto_of q1 true], None)
  /\ QueryHistoryDTO.Starred (dto_of q1 true) = true
  /\ fst (searchQueries (service no_faults) alice
            (search_q ["ds1"; "ds2"] false "time-asc" 1 10) (world_of db1))
     = ([dto_of q1 true; dto_of q2 false; dto_of q3 false], None)
  /\ (QueryHistoryDTO.Starred (dto_of q2 false) = true
      <-> exists st, In st (query_history_star (db (world_of db1)))
                     /\ QueryHistoryStar.QueryUID st
                        = QueryHistoryDTO.UID (dto_of q2 false)).
Proof.
  split; [reflexivity|]. split.
  - apply (proj1 (proj2 (searchQueries_starred (service no_faults) alice
                    (search_q ["ds1"; "ds2"] true "time-asc" 1 10)
                    (world_of db1))) eq_refl).
    left. reflexivity.
  - split; [reflexivity|].
    apply (proj2 (proj2 (searchQueries_starred (service no_faults) alice
                    (search_q ["ds1"; "ds2"] false "time-asc" 1 10)
                    (world_of db1))) eq_refl).
    right. left. reflexivity.
Defined.

Lemma wrap_int_id (z : Z) : in_int z -> wrap_int z = z.
Proof.
  unfold in_int, int_min, int_max, wrap_int. intros H.
  rewrite Z.mod_small; lia.
Qed.

Lemma default_page_first (p : Z) : p <= 1 -> default_page p = 1.
Proof. unfold default_page. intros H. destruct (p <=? 0) eqn:E; [reflexivity|].
  apply Z.leb_gt in E. lia. Qed.

Lemma default_page_pos (p : Z) : 1 <= default_page p.
Proof. unfold default_page. destruct (p <=? 0) eqn:E; [lia|].
  apply Z.leb_gt in E. lia. Qed.

Lemma default_limit_pos (l : Z) : 1 <= default_limit l.
Proof. unfold default_limit. destruct (l <=? 0) eqn:E; [lia|].
  apply Z.leb_gt in E. lia. Qed.

(** Without overflow the offset sent is [Limit * (Page - 1)]. *)
Lemma sql_offset_exact (user : SignedInUser) (query : SearchInQueryHistoryQuery) :
  default_limit (Limit query) * (default_page (Page query) - 1) <= int_max ->
  sql_offset (search_statement user query)
  = default_limit (Limit query) * (default_page (Page query) - 1).
Proof.
  intros H. simpl. unfold int_mul, int_sub.
  pose proof (default_page_pos (Page query)) as Hp.
  pose proof (default_limit_pos (Limit query)) as Hl.
  assert (Hsub : in_int (default_page (Page query) - 1)).
  { unfold in_int, int_min, int_max in *. split; [lia|]. nia. }
  rewrite (wrap_int_id _ Hsub). apply wrap_int_id.
  unfold in_int, int_min, int_max in *. split; [nia | lia].
Qed.

(** C10. The join of the search is on [query_uid] alone; the user of the
    star row plays no part. For every DTO returned, [Starred] is true
    exactly when some star row, of whatever user, has the DTO's uid as its
    [query_uid]; and with [OnlyStarred = true] a query of the caller that
    passes the [WHERE] clause is returned as soon as a star row of whatever
    user references it (first page, limit not below the number of rows). *)
Theorem searchQueries_join_ignores_user (s : QueryHistoryService)
    (user : SignedInUser) (query : SearchInQueryHistoryQuery) (w : World) :
  (forall dto, In dto (fst (fst (searchQueries s user query w))) ->
     (QueryHistoryDTO.Starred dto = true
      <-> referenced (QueryHistoryDTO.UID dto) (db w)))
  /\ (OnlyStarred query = true ->
      DatasourceUIDs query <> [] ->
      fault_schedule (store s) (clock w) = None ->
      Page query <= 1 ->
      Z.of_nat (List.length (matching_rows (dialect (store s))
                               (search_statement user query) (db w)))
      <= default_limit (Limit query) ->
      forall q st,
        In q (query_history (db w)) ->
        In st (query_history_star (db w)) ->
        QueryHistoryStar.QueryUID st = QueryHistory.UID q ->
        where_clause (dialect (store s)) (search_statement user query)
          (q, Some st) = true ->
        In (dto_of q true) (fst (fst (searchQueries s user query w)))).
Proof.
  split.
  - intros dto H. apply searchQueries_rows in H.
    destruct H as [r [Hr [_ ->]]]. unfold referenced. simpl in *.
    destruct (OnlyStarred query).
    + split; [intros _ | reflexivity].
      apply join_in in Hr. destruct Hr as [_ Hr].
      destruct (snd r) as [st|].
      * exists st. split; [tauto|]. apply join_on_eq. tauto.
      * destruct Hr as [Hr _]. discriminate.
    + rewrite (left_join_starred _ _ Hr). split.
      * intros [st [Hin Hon]]. exists st. split; [exact Hin|].
        now apply join_on_eq.
      * intros [st [Hin Hon]]. exists st. split; [exact Hin|].
        now apply join_on_eq.
  - intros Ho Hds H0 Hpage Hlen q st Hq Hst Hon Hwhere.
    rewrite (searchQueries_run _ _ _ _ Hds H0). unfold run_search.
    assert (Hoff : sql_offset (search_statement user query) = 0).
    { rewrite sql_offset_exact; rewrite (default_page_first _ Hpage);
        unfold int_max; lia. }
    rewrite Hoff. simpl (0 <? 0). cbv iota.
    unfold limit_offset. simpl (Z.to_nat 0). rewrite skipn_0.
    rewrite firstn_all2 by (simpl sql_limit; lia).
    simpl fst. apply in_map_iff. exists (q, Some st). split.
    + simpl. rewrite Ho. reflexivity.
    + unfold matching_rows. apply order_by_in. apply filter_In.
      split; [|exact Hwhere]. apply join_matched; auto.
      now apply join_on_eq.
Qed.

Lemma searchQueries_join_ignores_user_witness :
  QueryHistoryStar.UserID foreign_star_q2 <> UserId alice
  /\ In (dto_of q2 true)
       (fst (fst (searchQueries (service no_faults) alice
                    (search_q ["ds1"; "ds2"] true "time-asc" 1 10)
                    (world_of db2)))).
Proof.
  split; [discriminate|].
  apply (proj2 (searchQueries_join_ignores_user (service no_faults) alice
                  (search_q ["ds1"; "ds2"] true "time-asc" 1 10)
                  (world_of db2)))
    with (st := foreign_star_q2).
  - reflexivity.
  - discriminate.
  - reflexivity.
  - simpl. lia.
  - vm_compute. discriminate.
  - right. left. reflexivity.
  - right. left. reflexivity.
  - reflexivity.
  - reflexivity.
Defined.

(** *** Pages *)

(** Two pages of the same length at offsets that are a page apart or more
    are separate segments of the list. *)
Lemma pages_apart {A} (l : list A) (n a b : nat) :
  (a + n <= b)%nat ->
  exists before between after,
    l = before ++ firstn n (skipn a l) ++ between
        ++ firstn n (skipn b l) ++ after.
Proof.
  intros H.
  exists (firstn a l), (firstn (b - (a + n)) (skipn (a + n) l)),
    (skipn n (skipn b l)).
  rewrite (firstn_skipn n (skipn b l)).
  replace (skipn b l) with (skipn (b - (a + n)) (skipn (a + n) l))
    by (rewrite skipn_skipn; f_equal; lia).
  rewrite (firstn_skipn (b - (a + n)) (skipn (a + n) l)).
  replace (skipn (a + n) l) with (skipn n (skipn a l))
    by (rewrite skipn_skipn; f_equal; lia).
  rewrite (firstn_skipn n (skipn a l)).
  now rewrite firstn_skipn.
Qed.

Lemma searchQueries_slice (s : QueryHistoryService) (user : SignedInUser)
    (query : SearchInQueryHistoryQuery) (w : World) :
  DatasourceUIDs query <> [] ->
  fault_schedule (store s) (clock w) = None ->
  default_limit (Limit query) * (default_page (Page query) - 1) <= int_max ->
  fst (searchQueries s user query w)
  = (firstn (Z.to_nat (default_limit (Limit query)))
       (skipn (Z.to_nat (default_limit (Limit query)
                         * (default_page (Page query) - 1)))
          (all_results s user query (db w))), None).
Proof.
  intros Hds H0 Hfit. rewrite (searchQueries_run _ _ _ _ Hds H0).
  unfold run_search. rewrite (sql_offset_exact _ _ Hfit).
  pose proof (default_page_pos (Page query)) as Hp.
  pose proof (default_limit_pos (Limit query)) as Hl.
  assert (E : (default_limit (Limit query) * (default_page (Page query) - 1) <? 0)
              = false) by (apply Z.ltb_ge; nia).
  rewrite E. simpl fst. rewrite limit_offset_map. reflexivity.
Qed.

Lemma where_clause_scope (dl : Dialect) (user : SignedInUser)
    (query : SearchInQueryHistoryQuery) (r : JoinedRow) :
  where_clause dl (search_statement user query) r = true ->
  QueryHistory.OrgID (fst r) = OrgId user
  /\ QueryHistory.CreatedBy (fst r) = UserId user
  /\ In (QueryHistory.DatasourceUID (fst r)) (DatasourceUIDs query).
Proof.
  unfold where_clause. simpl. intros H.
  apply andb_true_iff in H. destruct H as [H Hds].
  apply andb_true_iff in H. destruct H as [H _].
  apply andb_true_iff in H. destruct H as [Ho Hc].
  apply Z.eqb_eq in Ho, Hc. apply existsb_exists in Hds.
  destruct Hds as [u [Hin Hu]]. apply String.eqb_eq in Hu. subst u. auto.
Qed.

Lemma all_results_sorted (s : QueryHistoryService) (user : SignedInUser)
    (query : SearchInQueryHistoryQuery) (d : DB) :
  StronglySorted (dto_before (sql_order (search_statement user query)))
    (all_results s user query d).
Proof.
  unfold all_results. apply StronglySorted_map. unfold matching_rows.
  eapply StronglySorted_ind
    with (P := StronglySorted
                 (fun a b => dto_before (sql_order (search_statement user query))
                               (select_row (sql_join (search_statement user query)) a)
                               (select_row (sql_join (search_statement user query)) b)));
    [constructor | | apply order_by_sorted].
  intros a l _ IH Hall. constructor; [exact IH|].
  eapply Forall_impl; [|exact Hall].
  intros b Hb. unfold row_before, created_at in Hb. unfold dto_before.
  destruct (sql_order (search_statement user query)); simpl in *;
    now apply Z.leb_le.
Qed.

Lemma sort_order_asc (user : SignedInUser) (query : SearchInQueryHistoryQuery) :
  Sort query = "time-asc" -> sql_order (search_statement user query) = ASC.
Proof. intros E. simpl. rewrite E. reflexivity. Qed.

Lemma sort_order_desc (user : SignedInUser) (query : SearchInQueryHistoryQuery) :
  Sort query <> "time-asc" -> sql_order (search_statement user query) = DESC.
Proof.
  intros E. simpl. unfold default_sort.
  destruct (String.eqb (Sort query) "") eqn:E0; [reflexivity|].
  apply String.eqb_neq in E. now rewrite E.
Qed.

Lemma all_results_page (s : QueryHistoryService) (user : SignedInUser)
    (query : SearchInQueryHistoryQuery) (p : Z) (d : DB) :
  all_results s user (with_Page p query) d = all_results s user query d.
Proof. reflexivity. Qed.

(** C6, as the code has it. Provided [Limit * (Page - 1)], computed with the
    defaults (limit 100, page 1), does not overflow Go's [int], the search
    returns the slice of its whole answer that starts at that offset and
    has at most [Limit] rows; the rows are ordered by [CreatedAt], ascending
    for [Sort = "time-asc"] and descending otherwise; every row is a query
    of the caller's organisation and user with its data source in the
    given set; a later page with the same limit is a segment of the answer
    apart from the earlier page; and an empty answer is returned as the
    empty sequence without an error. *)
Theorem searchQueries_pages (s : QueryHistoryService) (user : SignedInUser)
    (query : SearchInQueryHistoryQuery) (w : World) :
  DatasourceUIDs query <> [] ->
  fault_schedule (store s) (clock w) = None ->
  default_limit (Limit query) * (default_page (Page query) - 1) <= int_max ->
  fst (searchQueries s user query w)
  = (firstn (Z.to_nat (default_limit (Limit query)))
       (skipn (Z.to_nat (default_limit (Limit query)
                         * (default_page (Page query) - 1)))
          (all_results s user query (db w))), None)
  /\ Z.of_nat (List.length (fst (fst (searchQueries s user query w))))
     <= default_limit (Limit query)
  /\ (Sort query = "time-asc" ->
        StronglySorted (dto_before ASC) (fst (fst (searchQueries s user query w))))
  /\ (Sort query <> "time-asc" ->
        StronglySorted (dto_before DESC) (fst (fst (searchQueries s user query w))))
  /\ (forall dto, In dto (fst (fst (searchQueries s user query w))) ->
        QueryHistoryDTO.CreatedBy dto = UserId user
        /\ In (QueryHistoryDTO.DatasourceUID dto) (DatasourceUIDs query)
        /\ exists q, In q (query_history (db w))
                     /\ QueryHistory.OrgID q = OrgId user
                     /\ QueryHistory.CreatedBy q = UserId user
                     /\ QueryHistory.UID q = QueryHistoryDTO.UID dto)
  /\ (forall p w2,
        db w2 = db w ->
        fault_schedule (store s) (clock w2) = None ->
        default_page (Page query) < default_page p ->
        default_limit (Limit query) * (default_page p - 1) <= int_max ->
        exists before between after,
          all_results s user query (db w)
          = before ++ fst (fst (searchQueries s user query w))
            ++ between
            ++ fst (fst (searchQueries s user (with_Page p query) w2))
            ++ after)
  /\ (all_results s user query (db w) = [] ->
        fst (searchQueries s user query w) = ([], None)).
Proof.
  intros Hds H0 Hfit.
  pose proof (default_page_pos (Page query)) as Hp.
  pose proof (default_limit_pos (Limit query)) as Hl.
  pose proof (searchQueries_slice s user query w Hds H0 Hfit) as Hslice.
  split; [exact Hslice|]. split; [|split; [|split; [|split; [|split]]]].
  - rewrite Hslice. simpl fst.
    pose proof (firstn_le_length (Z.to_nat (default_limit (Limit query)))
                  (skipn (Z.to_nat (default_limit (Limit query)
                                    * (default_page (Page query) - 1)))
                     (all_results s user query (db w)))) as Hlen.
    lia.
  - intros Hsort. rewrite Hslice. simpl fst.
    apply StronglySorted_firstn, StronglySorted_skipn.
    rewrite <- (sort_order_asc user query Hsort). apply all_results_sorted.
  - intros Hsort. rewrite Hslice. simpl fst.
    apply StronglySorted_firstn, StronglySorted_skipn.
    rewrite <- (sort_order_desc user query Hsort). apply all_results_sorted.
  - intros dto Hin. apply searchQueries_rows in Hin.
    destruct Hin as [r [Hr [Hwhere ->]]].
    apply where_clause_scope in Hwhere. destruct Hwhere as [Ho [Hc Hd]].
    apply join_in in Hr. destruct Hr as [Hr _]. simpl.
    repeat split; auto. exists (fst r). auto.
  - intros p w2 Hdb H2 Hlater Hfit2.
    rewrite Hslice.
    rewrite (searchQueries_slice s user (with_Page p query) w2 Hds H2 Hfit2).
    simpl fst. rewrite Hdb, all_results_page. simpl (Limit _). simpl (Page _).
    apply pages_apart. nia.
  - intros Hnil. rewrite Hslice, Hnil, skipn_nil, firstn_nil. reflexivity.
Qed.

Lemma searchQueries_pages_witness :
  fst (searchQueries (service no_faults) alice
         (search_q ["ds1"; "ds2"] false "time-desc" 2 2) (world_of db1))
  = ([dto_of q1 true], None)
  /\ StronglySorted (dto_before DESC)
       (fst (fst (searchQueries (service no_faults) alice
                    (search_q ["ds1"; "ds2"] false "time-desc" 1 2)
                    (world_of db1)))).
Proof.
  split.
  - rewrite (proj1 (searchQueries_pages (service no_faults) alice
                      (search_q ["ds1"; "ds2"] false "time-desc" 2 2)
                      (world_of db1) ltac:(discriminate) eq_refl
                      ltac:(vm_compute; discriminate))).
    reflexivity.
  - apply (searchQueries_pages (service no_faults) alice
             (search_q ["ds1"; "ds2"] false "time-desc" 1 2) (world_of db1)).
    + discriminate.
    + reflexivity.
    + vm_compute. discriminate.
    + discriminate.
Defined.

(** C6 as stated fails where the offset overflows: with limit 4, page
    2^62 + 1 is sent with offset 4 * 2^62 = 2^64, which wraps to 0, so the
    page returns the same three rows as page 1, although the offset the
    claim gives lies beyond the last row. *)
Lemma searchQueries_pages_overlap :
  fst (searchQueries (service no_faults) alice
         (search_q ["ds1"; "ds2"] false "time-asc" 1 4) (world_of db0))
  = ([dto_of q1 false; dto_of q2 false; dto_of q3 false], None)
  /\ fst (searchQueries (service no_faults) alice
            (search_q ["ds1"; "ds2"] false "time-asc" (2 ^ 62 + 1) 4)
            (world_of db0))
     = ([dto_of q1 false; dto_of q2 false; dto_of q3 false], None)
  /\ Z.of_nat (List.length
                 (all_results (service no_faults) alice
                    (search_q ["ds1"; "ds2"] false "time-asc" (2 ^ 62 + 1) 4)
                    db0))
     < 4 * ((2 ^ 62 + 1) - 1)
  /\ in_int (2 ^ 62 + 1).
Proof.
  split; [vm_compute; reflexivity|]. split; [vm_compute; reflexivity|].
  split; [vm_compute; reflexivity|]. vm_compute. split; discriminate.
Qed.

(** ** checkDashboardAndPanel *)

(** C3. The checks come in a fixed order. With an empty [dashboardUID] or
    [panelID <= 0] the call fails with [ErrDashboardOrPanelIdentifierNotSet]
    and the store is not consulted. Otherwise one lookup is made: when the
    store reports the dashboard absent, [ErrDashboardNotFound] is returned;
    when the dashboard fetched has no document, [ErrDashboardCorrupt]; when
    no entry of the document's panels has [panelID] as its id,
    [ErrDashboardPanelNotFound]; and no error otherwise. *)
Theorem checkDashboardAndPanel_order (orgID : Z) (dashboardUID : string)
    (panelID : Z) (st : Dashboard.Store) :
  (dashboardUID = "" \/ panelID <= 0 ->
     Dashboard.checkDashboardAndPanel orgID dashboardUID panelID st
     = (Some Dashboard.ErrDashboardOrPanelIdentifierNotSet, st))
  /\ (dashboardUID <> "" -> 0 < panelID ->
      Dashboard.lookups
        (snd (Dashboard.checkDashboardAndPanel orgID dashboardUID panelID st))
      = S (Dashboard.lookups st)
      /\ (fst (Dashboard.GetDashboard orgID dashboardUID st)
          = inr Dashboard.ErrDashboardNotFound ->
          fst (Dashboard.checkDashboardAndPanel orgID dashboardUID panelID st)
          = Some Dashboard.ErrDashboardNotFound)
      /\ (forall d,
            fst (Dashboard.GetDashboard orgID dashboardUID st) = inl d ->
            (Dashboard.Data d = None ->
               fst (Dashboard.checkDashboardAndPanel orgID dashboardUID panelID st)
               = Some Dashboard.ErrDashboardCorrupt)
            /\ (forall doc, Dashboard.Data d = Some doc ->
                  ((forall panel,
                      In panel (Dashboard.items_of (Dashboard.Get "panels" doc)) ->
                      Dashboard.has_id panelID panel = false) ->
                     fst (Dashboard.checkDashboardAndPanel orgID dashboardUID
                            panelID st)
                     = Some Dashboard.ErrDashboardPanelNotFound)
                  /\ ((exists panel,
                         In panel (Dashboard.items_of (Dashboard.Get "panels" doc))
                         /\ Dashboard.has_id panelID panel = true) ->
                        fst (Dashboard.checkDashboardAndPanel orgID dashboardUID
                               panelID st)
                        = None)))).
Proof.
  unfold Dashboard.checkDashboardAndPanel. split.
  - intros [-> | Hp].
    + reflexivity.
    + apply Z.leb_le in Hp. rewrite Hp, orb_true_r. reflexivity.
  - intros Hu Hp. apply String.eqb_neq in Hu. apply Z.leb_gt in Hp.
    rewrite Hu, Hp. simpl orb. cbv iota.
    destruct (Dashboard.GetDashboard orgID dashboardUID st) as [[d|e] st'] eqn:E.
    + assert (Hl : Dashboard.lookups st' = S (Dashboard.lookups st)).
      { unfold Dashboard.GetDashboard in E.
        destruct (find _ _); inversion E; reflexivity. }
      simpl fst. split; [|split].
      * destruct (Dashboard.Data d) as [doc|]; [destruct (existsb _ _)|];
          exact Hl.
      * discriminate.
      * intros d' Hd. inversion Hd; subst d'. split.
        -- intros ->. reflexivity.
        -- intros doc ->. split.
           ++ intros Hnone. rewrite (existsb_absent _ _ Hnone). reflexivity.
           ++ intros Hsome. apply existsb_exists in Hsome. rewrite Hsome.
              reflexivity.
    + assert (Hl : Dashboard.lookups st' = S (Dashboard.lookups st)).
      { unfold Dashboard.GetDashboard in E.
        destruct (find _ _); inversion E; reflexivity. }
      simpl. split; [exact Hl|]. split.
      * intros He. inversion He. reflexivity.
      * intros d Hd. discriminate.
Qed.

Lemma checkDashboardAndPanel_order_witness :
  Dashboard.checkDashboardAndPanel testOrgID "" 0 dashboard_store
  = (Some Dashboard.ErrDashboardOrPanelIdentifierNotSet, dashboard_store)
  /\ fst (Dashboard.checkDashboardAndPanel testOrgID "7" 2 dashboard_store)
     = Some Dashboard.ErrDashboardNotFound
  /\ fst (Dashboard.checkDashboardAndPanel testOrgID "2" 3 dashboard_store)
     = Some Dashboard.ErrDashboardCorrupt
  /\ fst (Dashboard.checkDashboardAndPanel testOrgID "1" 3 dashboard_store)
     = Some Dashboard.ErrDashboardPanelNotFound
  /\ fst (Dashboard.checkDashboardAndPanel testOrgID "1" 2 dashboard_store)
     = None.
Proof.
  split; [|split; [|split; [|split]]].
  - apply (checkDashboardAndPanel_order testOrgID "" 0 dashboard_store).
    left. reflexivity.
  - apply (checkDashboardAndPanel_order testOrgID "7" 2 dashboard_store);
      [discriminate | reflexivity | reflexivity].
  - apply (proj2 (proj2 (proj2 (checkDashboardAndPanel_order testOrgID "2" 3
                                  dashboard_store)
                           ltac:(discriminate) eq_refl)) _ eq_refl).
    reflexivity.
  - apply (proj2 (proj2 (proj2 (checkDashboardAndPanel_order testOrgID "1" 3
                                  dashboard_store)
                           ltac:(discriminate) eq_refl)) _ eq_refl)
      with (doc := dashboardJson); [reflexivity|].
    intros panel [<-|[]]. reflexivity.
  - apply (proj2 (proj2 (proj2 (checkDashboardAndPanel_order testOrgID "1" 2
                                  dashboard_store)
                           ltac:(discriminate) eq_refl)) _ eq_refl)
      with (doc := dashboardJson); [reflexivity|].
    eexists. split; [left; reflexivity | reflexivity].
Defined.

(** ** createQuery *)

Lemma uid_fresh_existsb (uid : string) (d : DB) :
  uid_fresh uid d ->
  existsb (fun q => String.eqb (QueryHistory.UID q) uid) (query_history d) = false.
Proof.
  intros H. apply existsb_absent. intros q Hq. apply String.eqb_neq. now apply H.
Qed.

Lemma uid_fresh_not_owned (org usr : Z) (uid : string) (d : DB) :
  uid_fresh uid d ->
  forall q, In q (query_history d) -> owned_by org usr uid q = false.
Proof.
  intros H q Hq. unfold owned_by.
  rewrite (proj2 (String.eqb_neq _ _) (H q Hq)). apply andb_false_r.
Qed.

Lemma owned_by_self (org usr id now : Z) (uid ds c qs : string) :
  owned_by org usr uid (QueryHistory.mk id uid org ds usr now c qs) = true.
Proof. unfold owned_by. simpl. now rewrite !Z.eqb_refl, String.eqb_refl. Qed.

Lemma createQuery_run (s : QueryHistoryService) (user : SignedInUser)
    (cmd : CreateQueryInQueryHistoryCommand) (uid : string) (now : Z) (w : World) :
  fault_schedule (store s) (clock w) = None ->
  uid_fresh uid (db w) ->
  createQuery s user cmd uid now w
  = ((QueryHistoryDTO.mk uid (DatasourceUID cmd) (UserId user) now ""
        (Queries cmd) false, None),
     {| db := {| query_history :=
                   query_history (db w)
                   ++ [QueryHistory.mk (next_query_id (query_history (db w)))
                         uid (OrgId user) (DatasourceUID cmd) (UserId user)
                         now "" (Queries cmd)];
                 query_history_star := query_history_star (db w) |};
        clock := S (clock w); log := log w |}).
Proof.
  intros H0 Hfresh. unfold createQuery, Insert_query. open_session.
  rewrite (statement_run _ _ _ _ H0). simpl.
  rewrite (uid_fresh_existsb _ _ Hfresh). reflexivity.
Qed.

(** X1. A successful [createQuery] returns the DTO of the new query, with
    the caller as creator, the empty comment and [Starred = false]; the
    row is appended to [query_history] under the caller's organisation, the
    caller can see it, and the rows that were there and the star table are
    as before. *)
Theorem createQuery_inserts (s : QueryHistoryService) (user : SignedInUser)
    (cmd : CreateQueryInQueryHistoryCommand) (uid : string) (now : Z) (w : World) :
  fault_schedule (store s) (clock w) = None ->
  uid_fresh uid (db w) ->
  fst (createQuery s user cmd uid now w)
  = (QueryHistoryDTO.mk uid (DatasourceUID cmd) (UserId user) now ""
       (Queries cmd) false, None)
  /\ (exists id,
        query_history (db (snd (createQuery s user cmd uid now w)))
        = query_history (db w)
          ++ [QueryHistory.mk id uid (OrgId user) (DatasourceUID cmd)
                (UserId user) now "" (Queries cmd)])
  /\ query_history_star (db (snd (createQuery s user cmd uid now w)))
     = query_history_star (db w)
  /\ query_visible user uid (db (snd (createQuery s user cmd uid now w))).
Proof.
  intros H0 Hfresh. rewrite (createQuery_run _ _ _ _ _ _ H0 Hfresh). simpl.
  split; [reflexivity|]. split; [eexists; reflexivity|].
  split; [reflexivity|].
  eexists. split; [apply in_or_app; right; left; reflexivity|].
  apply owned_by_self.
Qed.

Lemma createQuery_inserts_witness :
  fst (createQuery (service no_faults) alice create_cmd "q4" 400 (world_of db1))
  = (QueryHistoryDTO.mk "q4" "ds1" 7 400 "" "[{refId:C}]" false, None)
  /\ query_visible alice "q4"
       (db (snd (createQuery (service no_faults) alice create_cmd "q4" 400
                   (world_of db1)))).
Proof.
  assert (Hfresh : uid_fresh "q4" (db (world_of db1))).
  { intros q [<-|[<-|[<-|[]]]]; discriminate. }
  split.
  - apply (createQuery_inserts (service no_faults) alice create_cmd "q4" 400
             (world_of db1) eq_refl Hfresh).
  - apply (createQuery_inserts (service no_faults) alice create_cmd "q4" 400
             (world_of db1) eq_refl Hfresh).
Defined.

(** X2. When the insert fails, [createQuery] returns the zero DTO with the
    error of the store, and the tables are as before. *)
Theorem createQuery_store_failure (s : QueryHistoryService) (user : SignedInUser)
    (cmd : CreateQueryInQueryHistoryCommand) (uid : string) (now : Z)
    (w : World) (f : Fault) :
  fault_schedule (store s) (clock w) = Some f ->
  fst (createQuery s user cmd uid now w)
  = (QueryHistoryDTO.zero, Some (ErrStore (fault_err f)))
  /\ db (snd (createQuery s user cmd uid now w)) = db w.
Proof.
  intros H0. unfold createQuery, Insert_query. open_session.
  rewrite (statement_fault _ _ _ _ f H0). simpl. split; reflexivity.
Qed.

Lemma createQuery_store_failure_witness :
  fst (createQuery (service (fail_at 0 driver_down)) alice create_cmd "q4" 400
         (world_of db1))
  = (QueryHistoryDTO.zero, Some (ErrStore (DriverErr 1)))
  /\ db (snd (createQuery (service (fail_at 0 driver_down)) alice create_cmd
                "q4" 400 (world_of db1)))
     = db1.
Proof.
  apply (createQuery_store_failure (service (fail_at 0 driver_down)) alice
           create_cmd "q4" 400 (world_of db1) driver_down).
  reflexivity.
Defined.

(** X3. Create then delete is a round trip on [query_history]: after a
    [createQuery] with a uid no row carries, [deleteQuery] of that uid by
    the same user succeeds, reports one row and leaves the query rows
    exactly as they were before the create. *)
Theorem create_then_delete (s : QueryHistoryService) (user : SignedInUser)
    (cmd : CreateQueryInQueryHistoryCommand) (uid : string) (now : Z) (w : World) :
  healthy s (clock w) 3 ->
  uid_fresh uid (db w) ->
  fst (deleteQuery s user uid (snd (createQuery s user cmd uid now w)))
  = (1, None)
  /\ query_history
       (db (snd (deleteQuery s user uid (snd (createQuery s user cmd uid now w)))))
     = query_history (db w).
Proof.
  intros H Hfresh.
  assert (H0 : fault_schedule (store s) (clock w) = None) by (runs H).
  rewrite (createQuery_run _ _ _ _ _ _ H0 Hfresh).
  rewrite deleteQuery_run by (runs H). cbv zeta.
  rewrite (healthy_at _ _ _ _ H) by (simpl; lia). simpl.
  rewrite !filter_app. simpl.
  rewrite (filter_absent _ _ (uid_fresh_not_owned (OrgId user) (UserId user) _ _ Hfresh)).
  rewrite owned_by_self. simpl.
  split; [reflexivity|].
  rewrite (filter_negb_absent _ _ (uid_fresh_not_owned (OrgId user) (UserId user) _ _ Hfresh)).
  apply app_nil_r.
Qed.

Lemma create_then_delete_witness :
  query_history
    (db (snd (deleteQuery (service no_faults) alice "q4"
                (snd (createQuery (service no_faults) alice create_cmd "q4" 400
                        (world_of db1))))))
  = query_history db1.
Proof.
  apply (create_then_delete (service no_faults) alice create_cmd "q4" 400
           (world_of db1)).
  - apply no_faults_healthy.
  - intros q [<-|[<-|[<-|[]]]]; discriminate.
Defined.

(** ** More on deleteQuery *)

Lemma deleteQuery_query_fault (s : QueryHistoryService) (user : SignedInUser)
    (UID : string) (w : World) (f : Fault) :
  fault_schedule (store s) (S (clock w)) = Some f ->
  fst (deleteQuery s user UID w) = (0, Some (ErrStore (fault_err f)))
  /\ db (snd (deleteQuery s user UID w)) = db w
  /\ clock (snd (deleteQuery s user UID w)) = S (S (clock w)).
Proof.
  intros H1. unfold deleteQuery. open_session.
  destruct (fault_schedule (store s) (clock w)) as [f0|] eqn:H0.
  - rewrite (statement_fault _ _ _ _ f0 H0). simpl.
    rewrite (statement_fault _ _ _ _ f) by exact H1. simpl.
    repeat split; destruct (db w); reflexivity.
  - rewrite (statement_run _ _ _ _ H0). simpl.
    rewrite (statement_fault _ _ _ _ f) by exact H1. simpl.
    repeat split; destruct (db w); reflexivity.
Qed.

(** X4. The integer [deleteQuery] returns on success is the number of rows
    the delete affected: 1 when one row matches, whatever the id of the
    row. *)
Theorem deleteQuery_returns_row_count (s : QueryHistoryService)
    (user : SignedInUser) (UID : string) (w : World) :
  fault_schedule (store s) (S (clock w)) = None ->
  query_visible user UID (db w) ->
  fst (deleteQuery s user UID w)
  = (rows_affected (filter (owned_by (OrgId user) (UserId user) UID)
                      (query_history (db w))), None)
  /\ (forall q,
        filter (owned_by (OrgId user) (UserId user) UID) (query_history (db w))
        = [q] ->
        fst (deleteQuery s user UID w) = (1, None)).
Proof.
  intros H1 Hv. rewrite (deleteQuery_run _ _ _ _ H1). cbv zeta.
  rewrite (rows_affected_present _ _ Hv). simpl. split; [reflexivity|].
  intros q ->. reflexivity.
Qed.

Lemma deleteQuery_returns_row_count_witness :
  QueryHistory.ID q3 = 3
  /\ fst (deleteQuery (service no_faults) alice "q3" (world_of db1)) = (1, None).
Proof.
  split; [reflexivity|].
  apply (proj2 (deleteQuery_returns_row_count (service no_faults) alice "q3"
                  (world_of db1) eq_refl
                  (proj2 (query_visible_iff alice "q3" db1) eq_refl)) q3).
  reflexivity.
Defined.

(** X5. Whatever the store does, [deleteQuery] removes no query row other
    than those matching (OrgID, CreatedBy, UID), removes no star row other
    than the caller's for the uid, and adds no row to either table. *)
Theorem deleteQuery_frame (s : QueryHistoryService) (user : SignedInUser)
    (UID : string) (w : World) :
  (forall q, In q (query_history (db w)) ->
     owned_by (OrgId user) (UserId user) UID q = false ->
     In q (query_history (db (snd (deleteQuery s user UID w)))))
  /\ (forall st, In st (query_history_star (db w)) ->
        star_of (UserId user) UID st = false ->
        In st (query_history_star (db (snd (deleteQuery s user UID w)))))
  /\ incl (query_history (db (snd (deleteQuery s user UID w))))
       (query_history (db w))
  /\ incl (query_history_star (db (snd (deleteQuery s user UID w))))
       (query_history_star (db w)).
Proof.
  destruct (fault_schedule (store s) (S (clock w))) as [f|] eqn:H1.
  - destruct (deleteQuery_query_fault s user UID w f H1) as [_ [-> _]].
    repeat split; auto using incl_refl.
  - rewrite (deleteQuery_run _ _ _ _ H1). cbv zeta.
    destruct (rows_affected _ =? 0); simpl.
    + repeat split; auto using incl_refl.
    + split; [|split; [|split]].
      * intros q Hq Ho. apply filter_In. split; [exact Hq|]. now rewrite Ho.
      * intros st Hst Ho.
        destruct (fault_schedule (store s) (clock w)); [exact Hst|].
        apply filter_In. split; [exact Hst|]. now rewrite Ho.
      * intros q Hq. apply filter_In in Hq. tauto.
      * intros st Hst.
        destruct (fault_schedule (store s) (clock w)); [exact Hst|].
        apply filter_In in Hst. tauto.
Qed.

(** X6. A second [deleteQuery] for the same user and uid, right after a
    first one, fails with [ErrQueryNotFound], whether or not the first one
    found the query (the store running both deletes of query rows). *)
Theorem deleteQuery_twice (s : QueryHistoryService) (user : SignedInUser)
    (UID : string) (w : World) :
  fault_schedule (store s) (S (clock w)) = None ->
  fault_schedule (store s) (S (S (S (clock w)))) = None ->
  fst (deleteQuery s user UID (snd (deleteQuery s user UID w)))
  = (0, Some ErrQueryNotFound).
Proof.
  intros H1 H3.
  assert (Hafter : clock (snd (deleteQuery s user UID w)) = S (S (clock w))
                   /\ ~ query_visible user UID (db (snd (deleteQuery s user UID w)))).
  { rewrite (deleteQuery_run _ _ _ _ H1). cbv zeta.
    destruct (rows_affected _ =? 0) eqn:E; simpl.
    - split; [reflexivity|]. apply Z.eqb_eq in E.
      intros [q [Hq Ho]].
      rewrite (proj1 (rows_affected_zero _ _) E q Hq) in Ho. discriminate.
    - split; [reflexivity|]. intros [q [Hq Ho]].
      apply filter_negb_clears in Hq. congruence. }
  destruct Hafter as [Hc Hnv].
  rewrite deleteQuery_run by (rewrite Hc; exact H3). cbv zeta.
  assert (E : rows_affected
                (filter (owned_by (OrgId user) (UserId user) UID)
                   (query_history (db (snd (deleteQuery s user UID w))))) = 0).
  { apply rows_affected_zero. intros q Hq.
    apply not_true_is_false. intros Ho. apply Hnv. exists q. auto. }
  rewrite E. reflexivity.
Qed.

Lemma deleteQuery_twice_witness :
  fst (deleteQuery (service no_faults) alice "q1"
         (snd (deleteQuery (service no_faults) alice "q1" (world_of db1))))
  = (0, Some ErrQueryNotFound).
Proof.
  apply (deleteQuery_twice (service no_faults) alice "q1" (world_of db1));
    reflexivity.
Defined.

(** X7. When the delete of the query row fails, [deleteQuery] returns 0 and
    the error of the store, and the transaction is rolled back: both tables
    are as before, the star row included, although its delete had run. *)
Theorem deleteQuery_store_failure (s : QueryHistoryService) (user : SignedInUser)
    (UID : string) (w : World) (f : Fault) :
  fault_schedule (store s) (S (clock w)) = Some f ->
  fst (deleteQuery s user UID w) = (0, Some (ErrStore (fault_err f)))
  /\ db (snd (deleteQuery s user UID w)) = db w.
Proof.
  intros H1. destruct (deleteQuery_query_fault s user UID w f H1) as [Hr [Hd _]].
  now split.
Qed.

Lemma deleteQuery_store_failure_witness :
  starred_by alice "q1" db1
  /\ fst (deleteQuery (service (fail_at 1 driver_down)) alice "q1" (world_of db1))
     = (0, Some (ErrStore (DriverErr 1)))
  /\ db (snd (deleteQuery (service (fail_at 1 driver_down)) alice "q1"
                (world_of db1)))
     = db1.
Proof.
  split; [apply starred_by_iff; reflexivity|].
  apply (deleteQuery_store_failure (service (fail_at 1 driver_down)) alice "q1"
           (world_of db1) driver_down).
  reflexivity.
Defined.

(** ** More on starQuery and unstarQuery *)

Ltac all_cases s w :=
  open_session; unfold statement;
  destruct (fault_schedule (store s) (clock w)); simpl;
  [ | destruct (find _ (query_history (db w))); simpl;
      [ destruct (fault_schedule (store s) (S (clock w))); simpl | ] ].

Lemma starQuery_insert_fault (s : QueryHistoryService) (user : SignedInUser)
    (UID : string) (w : World) (q : QueryHistory.t) (f : Fault) :
  fault_schedule (store s) (clock w) = None ->
  find (owned_by (OrgId user) (UserId user) UID) (query_history (db w)) = Some q ->
  fault_schedule (store s) (S (clock w)) = Some f ->
  starQuery s user UID w
  = ((QueryHistoryDTO.zero,
      Some (if IsUniqueConstraintViolation (fault_err f)
            then ErrQueryAlreadyStarred else ErrStore (fault_err f))),
     {| db := db w; clock := S (S (clock w)); log := log w |}).
Proof.
  intros H0 Hfind H1. unfold starQuery. open_session.
  rewrite (statement_run _ _ _ _ H0), Hfind. simpl.
  rewrite (statement_fault _ _ _ _ f) by exact H1. simpl.
  destruct (IsUniqueConstraintViolation (fault_err f)); simpl;
    destruct (db w); reflexivity.
Qed.

(** X8. When the insert of the star row fails, [starQuery] answers
    [ErrQueryAlreadyStarred] exactly when the dialect classifies the error
    as a unique-constraint violation, and returns the error of the store
    otherwise; in both cases the tables are as before. *)
Theorem starQuery_insert_failure (s : QueryHistoryService) (user : SignedInUser)
    (UID : string) (w : World) (f : Fault) :
  fault_schedule (store s) (clock w) = None ->
  query_visible user UID (db w) ->
  fault_schedule (store s) (S (clock w)) = Some f ->
  (IsUniqueConstraintViolation (fault_err f) = true ->
     fst (starQuery s user UID w)
     = (QueryHistoryDTO.zero, Some ErrQueryAlreadyStarred))
  /\ (IsUniqueConstraintViolation (fault_err f) = false ->
        fst (starQuery s user UID w)
        = (QueryHistoryDTO.zero, Some (ErrStore (fault_err f))))
  /\ db (snd (starQuery s user UID w)) = db w.
Proof.
  intros H0 Hv H1. destruct (visible_find _ _ _ Hv) as [q [Hf _]].
  rewrite (starQuery_insert_fault _ _ _ _ q f H0 Hf H1). simpl.
  split; [|split]; [intros -> | intros -> |]; reflexivity.
Qed.

Lemma starQuery_insert_failure_witness :
  fst (starQuery (service (fail_at 1 driver_down)) alice "q2" (world_of db1))
  = (QueryHistoryDTO.zero, Some (ErrStore (DriverErr 1)))
  /\ db (snd (starQuery (service (fail_at 1 driver_down)) alice "q2"
                (world_of db1)))
     = db1.
Proof.
  assert (Hv : query_visible alice "q2" (db (world_of db1)))
    by (apply query_visible_iff; reflexivity).
  split.
  - apply (starQuery_insert_failure (service (fail_at 1 driver_down)) alice
             "q2" (world_of db1) driver_down eq_refl Hv eq_refl).
    reflexivity.
  - apply (starQuery_insert_failure (service (fail_at 1 driver_down)) alice
             "q2" (world_of db1) driver_down eq_refl Hv eq_refl).
Defined.

(** X9. Starring twice: for a query the caller can see, a second
    [starQuery] right after a first one fails with
    [ErrQueryAlreadyStarred] and changes nothing. *)
Theorem starQuery_twice (s : QueryHistoryService) (user : SignedInUser)
    (UID : string) (w : World) :
  healthy s (clock w) 4 ->
  query_visible user UID (db w) ->
  fst (starQuery s user UID (snd (starQuery s user UID w)))
  = (QueryHistoryDTO.zero, Some ErrQueryAlreadyStarred)
  /\ db (snd (starQuery s user UID (snd (starQuery s user UID w))))
     = db (snd (starQuery s user UID w)).
Proof.
  intros H Hv. destruct (visible_find _ _ _ Hv) as [q [Hf _]].
  assert (H2 : healthy s (clock w) 2) by (apply (healthy_shift _ _ _ _ _ H); lia).
  assert (Hafter : exists w1, snd (starQuery s user UID w) = w1
                     /\ clock w1 = S (S (clock w))
                     /\ query_history (db w1) = query_history (db w)
                     /\ existsb (star_of (UserId user) UID)
                          (query_history_star (db w1)) = true).
  { destruct (existsb (star_of (UserId user) UID) (query_history_star (db w)))
      eqn:E.
    - rewrite (starQuery_duplicate _ _ _ _ q H2 Hf E). eexists.
      split; [reflexivity|]. simpl. auto.
    - rewrite (starQuery_fresh _ _ _ _ q H2 Hf E). eexists.
      split; [reflexivity|]. simpl. repeat split.
      rewrite existsb_app. simpl. unfold star_of at 2. simpl.
      rewrite Z.eqb_refl, String.eqb_refl. simpl. apply orb_true_r. }
  destruct Hafter as [w1 [-> [Hc [Hq Hs]]]].
  assert (H1 : healthy s (clock w1) 2)
    by (apply (healthy_shift _ _ _ _ _ H); lia).
  rewrite (starQuery_duplicate _ _ _ _ q H1) by (rewrite ?Hq; assumption).
  split; reflexivity.
Qed.

Lemma starQuery_twice_witness :
  fst (starQuery (service no_faults) alice "q2"
         (snd (starQuery (service no_faults) alice "q2" (world_of db1))))
  = (QueryHistoryDTO.zero, Some ErrQueryAlreadyStarred).
Proof.
  apply (starQuery_twice (service no_faults) alice "q2" (world_of db1)).
  - apply no_faults_healthy.
  - apply query_visible_iff. reflexivity.
Defined.

(** X10. Whatever the store does, [starQuery] leaves [query_history] as it
    is, and the star table is either as before or, when the call succeeds,
    extended by one row for the caller and the uid; a call that returns an
    error changes no table. *)
Theorem starQuery_frame (s : QueryHistoryService) (user : SignedInUser)
    (UID : string) (w : World) :
  query_history (db (snd (starQuery s user UID w))) = query_history (db w)
  /\ (query_history_star (db (snd (starQuery s user UID w)))
      = query_history_star (db w)
      \/ (snd (fst (starQuery s user UID w)) = None
          /\ exists id,
               query_history_star (db (snd (starQuery s user UID w)))
               = query_history_star (db w)
                 ++ [QueryHistoryStar.mk id UID (UserId user)]))
  /\ (snd (fst (starQuery s user UID w)) <> None ->
      db (snd (starQuery s user UID w)) = db w).
Proof.
  unfold starQuery. all_cases s w.
  - repeat split; auto.
  - destruct (IsUniqueConstraintViolation _); simpl; repeat split; auto.
  - destruct (existsb _ _); simpl.
    + repeat split; auto.
    + split; [reflexivity|]. split.
      * right. split; [reflexivity|]. eexists. reflexivity.
      * intros Hn. contradiction.
  - repeat split; auto.
Qed.

(** X11. Whatever the store does, [unstarQuery] leaves [query_history] as
    it is and never removes a star row of another user or for another uid;
    the star table is either as before or, when the call succeeds, the
    table without the caller's star rows for the uid. *)
Theorem unstarQuery_frame (s : QueryHistoryService) (user : SignedInUser)
    (UID : string) (w : World) :
  query_history (db (snd (unstarQuery s user UID w))) = query_history (db w)
  /\ (query_history_star (db (snd (unstarQuery s user UID w)))
      = query_history_star (db w)
      \/ (snd (fst (unstarQuery s user UID w)) = None
          /\ query_history_star (db (snd (unstarQuery s user UID w)))
             = filter (fun st => negb (star_of (UserId user) UID st))
                 (query_history_star (db w))))
  /\ (forall st, In st (query_history_star (db w)) ->
        star_of (UserId user) UID st = false ->
        In st (query_history_star (db (snd (unstarQuery s user UID w))))).
Proof.
  unfold unstarQuery. all_cases s w.
  - repeat split; auto.
  - destruct (fault_rows _ =? 0); simpl; repeat split; auto.
  - destruct (rows_affected _ =? 0); simpl.
    + repeat split; auto.
    + split; [reflexivity|]. split.
      * right. split; reflexivity.
      * intros st Hst Ho. apply filter_In. split; [exact Hst|]. now rewrite Ho.
  - repeat split; auto.
Qed.

Lemma unstarQuery_missing (s : QueryHistoryService) (user : SignedInUser)
    (UID : string) (w : World) :
  fault_schedule (store s) (clock w) = None ->
  ~ query_visible user UID (db w) ->
  unstarQuery s user UID w
  = ((QueryHistoryDTO.zero, Some ErrQueryNotFound),
     {| db := db w; clock := S (clock w); log := log w |}).
Proof.
  intros H0 Hv. unfold unstarQuery. open_session.
  rewrite (statement_run _ _ _ _ H0), (not_visible_find _ _ _ Hv). simpl.
  destruct (db w); reflexivity.
Qed.

(** X12. A query the caller cannot see (none with the uid, or one of
    another user or organisation) cannot be unstarred or commented:
    [unstarQuery] and [patchQueryComment] fail with [ErrQueryNotFound]
    after the lookup alone, even when a star row of the caller for the uid
    exists, and the tables are as before. *)
Theorem invisible_query_not_found (s : QueryHistoryService) (user : SignedInUser)
    (UID : string) (cmd : PatchQueryCommentInQueryHistoryCommand) (w : World) :
  fault_schedule (store s) (clock w) = None ->
  ~ query_visible user UID (db w) ->
  (fst (unstarQuery s user UID w) = (QueryHistoryDTO.zero, Some ErrQueryNotFound)
   /\ db (snd (unstarQuery s user UID w)) = db w
   /\ clock (snd (unstarQuery s user UID w)) = S (clock w))
  /\ (fst (patchQueryComment s user UID cmd w)
      = (QueryHistoryDTO.zero, Some ErrQueryNotFound)
      /\ db (snd (patchQueryComment s user UID cmd w)) = db w
      /\ clock (snd (patchQueryComment s user UID cmd w)) = S (clock w)).
Proof.
  intros H0 Hv.
  rewrite (unstarQuery_missing _ _ _ _ H0 Hv).
  rewrite (patchQueryComment_missing _ _ _ _ _ H0 Hv).
  simpl. repeat split.
Qed.

Lemma invisible_query_not_found_witness :
  starred_by bob "q2" db2
  /\ fst (unstarQuery (service no_faults) bob "q2" (world_of db2))
     = (QueryHistoryDTO.zero, Some ErrQueryNotFound)
  /\ fst (patchQueryComment (service no_faults) bob "q2" {| Comment := "mine" |}
            (world_of db2))
     = (QueryHistoryDTO.zero, Some ErrQueryNotFound).
Proof.
  assert (Hv : ~ query_visible bob "q2" (db (world_of db2))).
  { intros Hv. apply query_visible_iff in Hv. discriminate. }
  split; [apply starred_by_iff; reflexivity|]. split.
  - apply (invisible_query_not_found (service no_faults) bob "q2"
             {| Comment := "mine" |} (world_of db2) eq_refl Hv).
  - apply (invisible_query_not_found (service no_faults) bob "q2"
             {| Comment := "mine" |} (world_of db2) eq_refl Hv).
Defined.

(** X13. When the lookup of the query row fails, [starQuery],
    [unstarQuery] and [patchQueryComment] return the zero DTO with the
    error of the store; no further statement is sent and the tables are
    as before. *)
Theorem lookup_failure (s : QueryHistoryService) (user : SignedInUser)
    (UID : string) (cmd : PatchQueryCommentInQueryHistoryCommand) (w : World)
    (f : Fault) :
  fault_schedule (store s) (clock w) = Some f ->
  starQuery s user UID w
  = ((QueryHistoryDTO.zero, Some (ErrStore (fault_err f))),
     {| db := db w; clock := S (clock w); log := log w |})
  /\ unstarQuery s user UID w
     = ((QueryHistoryDTO.zero, Some (ErrStore (fault_err f))),
        {| db := db w; clock := S (clock w); log := log w |})
  /\ patchQueryComment s user UID cmd w
     = ((QueryHistoryDTO.zero, Some (ErrStore (fault_err f))),
        {| db := db w; clock := S (clock w); log := log w |}).
Proof.
  intros H0. unfold starQuery, unstarQuery, patchQueryComment. open_session.
  rewrite !(statement_fault _ _ _ _ f H0). simpl. repeat split.
Qed.

Lemma lookup_failure_witness :
  fst (starQuery (service (fail_at 0 driver_down)) alice "q1" (world_of db1))
  = (QueryHistoryDTO.zero, Some (ErrStore (DriverErr 1)))
  /\ fst (unstarQuery (service (fail_at 0 driver_down)) alice "q1" (world_of db1))
     = (QueryHistoryDTO.zero, Some (ErrStore (DriverErr 1))).
Proof.
  split.
  - rewrite (proj1 (lookup_failure (service (fail_at 0 driver_down)) alice "q1"
                      {| Comment := "" |} (world_of db1) driver_down eq_refl)).
    reflexivity.
  - rewrite (proj1 (proj2 (lookup_failure (service (fail_at 0 driver_down))
                             alice "q1" {| Comment := "" |} (world_of db1)
                             driver_down eq_refl))).
    reflexivity.
Defined.

(** ** More on patchQueryComment *)

(** X14. On success the DTO of [patchQueryComment] carries the uid asked
    for and the comment of the command, and its [Starred] is the caller's
    own star: true exactly when a star row for (user, uid) exists. The star
    table is not changed. *)
Theorem patchQueryComment_dto (s : QueryHistoryService) (user : SignedInUser)
    (UID : string) (cmd : PatchQueryCommentInQueryHistoryCommand) (w : World) :
  healthy s (clock w) 3 ->
  query_visible user UID (db w) ->
  snd (fst (patchQueryComment s user UID cmd w)) = None
  /\ QueryHistoryDTO.UID (fst (fst (patchQueryComment s user UID cmd w))) = UID
  /\ QueryHistoryDTO.Comment (fst (fst (patchQueryComment s user UID cmd w)))
     = Comment cmd
  /\ (QueryHistoryDTO.Starred (fst (fst (patchQueryComment s user UID cmd w)))
      = true <-> starred_by user UID (db w))
  /\ query_history_star (db (snd (patchQueryComment s user UID cmd w)))
     = query_history_star (db w).
Proof.
  intros H Hv. destruct (visible_find _ _ _ Hv) as [q [Hf [_ [_ [_ Hu]]]]].
  rewrite (patchQueryComment_run _ _ _ _ _ q H Hf). simpl.
  repeat split; auto.
  - intros E. now apply starred_by_iff.
  - intros E. now apply starred_by_iff.
Qed.

Lemma patchQueryComment_dto_witness :
  QueryHistoryDTO.Comment
    (fst (fst (patchQueryComment (service no_faults) alice "q2"
                 {| Comment := "slow" |} (world_of db2))))
  = "slow"
  /\ (QueryHistoryDTO.Starred
        (fst (fst (patchQueryComment (service no_faults) alice "q2"
                     {| Comment := "slow" |} (world_of db2))))
      = true <-> starred_by alice "q2" (db (world_of db2))).
Proof.
  assert (Hv : query_visible alice "q2" (db (world_of db2)))
    by (apply query_visible_iff; reflexivity).
  split.
  - apply (patchQueryComment_dto (service no_faults) alice "q2"
             {| Comment := "slow" |} (world_of db2) (no_faults_healthy 0 3) Hv).
  - apply (patchQueryComment_dto (service no_faults) alice "q2"
             {| Comment := "slow" |} (world_of db2) (no_faults_healthy 0 3) Hv).
Defined.

(** X15. [patchQueryComment] is atomic: when the update or the existence
    check that follows it fails, the call returns the zero DTO with the
    error of the store and the comment written by the update is rolled
    back, the tables being as before. *)
Theorem patchQueryComment_rollback (s : QueryHistoryService)
    (user : SignedInUser) (UID : string)
    (cmd : PatchQueryCommentInQueryHistoryCommand) (w : World) (f : Fault) :
  fault_schedule (store s) (clock w) = None ->
  query_visible user UID (db w) ->
  fault_schedule (store s) (S (clock w)) = Some f
  \/ (fault_schedule (store s) (S (clock w)) = None
      /\ fault_schedule (store s) (S (S (clock w))) = Some f) ->
  fst (patchQueryComment s user UID cmd w)
  = (QueryHistoryDTO.zero, Some (ErrStore (fault_err f)))
  /\ db (snd (patchQueryComment s user UID cmd w)) = db w.
Proof.
  intros H0 Hv Hfail. destruct (visible_find _ _ _ Hv) as [q [Hf _]].
  unfold patchQueryComment. open_session.
  rewrite (statement_run _ _ _ _ H0), Hf. simpl.
  destruct Hfail as [H1 | [H1 H2]].
  - rewrite (statement_fault _ _ _ _ f) by exact H1. simpl.
    split; reflexivity.
  - rewrite statement_run by exact H1. simpl.
    rewrite (statement_fault _ _ _ _ f) by exact H2. simpl.
    split; reflexivity.
Qed.

Lemma patchQueryComment_rollback_witness :
  fst (patchQueryComment (service (fail_at 2 driver_down)) alice "q1"
         {| Comment := "new" |} (world_of db1))
  = (QueryHistoryDTO.zero, Some (ErrStore (DriverErr 1)))
  /\ db (snd (patchQueryComment (service (fail_at 2 driver_down)) alice "q1"
                {| Comment := "new" |} (world_of db1)))
     = db1.
Proof.
  apply (patchQueryComment_rollback (service (fail_at 2 driver_down)) alice
           "q1" {| Comment := "new" |} (world_of db1) driver_down).
  - reflexivity.
  - apply query_visible_iff. reflexivity.
  - right. split; reflexivity.
Defined.

(** X16. A patch with a comment that is not empty, on a table with unique
    ids: the row of the query gets the comment, every other row and every
    other field of the row is as before. *)
Theorem patchQueryComment_frame (s : QueryHistoryService) (user : SignedInUser)
    (UID : string) (cmd : PatchQueryCommentInQueryHistoryCommand) (w : World) :
  healthy s (clock w) 3 ->
  ids_unique (db w) ->
  query_visible user UID (db w) ->
  Comment cmd <> "" ->
  exists q,
    In q (query_history (db w))
    /\ QueryHistory.UID q = UID
    /\ query_history (db (snd (patchQueryComment s user UID cmd w)))
       = map (fun r => if QueryHistory.ID r =? QueryHistory.ID q
                       then QueryHistory.with_Comment (Comment cmd) r else r)
           (query_history (db w)).
Proof.
  intros H Hids Hv Hc. destruct (visible_find _ _ _ Hv) as [q [Hf [Hq [_ [_ Hu]]]]].
  exists q. split; [exact Hq|]. split; [exact Hu|].
  apply (patchQueryComment_persists s user UID cmd w q H Hids Hf Hc).
Qed.

Lemma patchQueryComment_frame_witness :
  exists q,
    In q (query_history (db (world_of db1)))
    /\ QueryHistory.UID q = "q1"
    /\ query_history
         (db (snd (patchQueryComment (service no_faults) alice "q1"
                     {| Comment := "new" |} (world_of db1))))
       = map (fun r => if QueryHistory.ID r =? QueryHistory.ID q
                       then QueryHistory.with_Comment "new" r else r)
           (query_history (db (world_of db1))).
Proof.
  apply (patchQueryComment_frame (service no_faults) alice "q1"
           {| Comment := "new" |} (world_of db1)).
  - apply no_faults_healthy.
  - unfold ids_unique. simpl.
    repeat constructor; simpl; intuition discriminate.
  - apply query_visible_iff. reflexivity.
  - discriminate.
Defined.

(** ** More on searchQueries *)

(** X17. [searchQueries] only reads: whatever the input and whatever the
    store does, the tables and the log are as before; and when the
    statement fails the call returns no rows and the error of the store. *)
Theorem searchQueries_read_only (s : QueryHistoryService) (user : SignedInUser)
    (query : SearchInQueryHistoryQuery) (w : World) :
  db (snd (searchQueries s user query w)) = db w
  /\ log (snd (searchQueries s user query w)) = log w
  /\ (forall f, DatasourceUIDs query <> [] ->
        fault_schedule (store s) (clock w) = Some f ->
        fst (searchQueries s user query w)
        = ([], Some (ErrStore (fault_err f)))).
Proof.
  destruct (DatasourceUIDs query) as [|u us] eqn:E.
  { unfold searchQueries. rewrite E. simpl. repeat split.
    intros f Hn. contradiction. }
  assert (Hds : DatasourceUIDs query <> []) by (rewrite E; discriminate).
  destruct (fault_schedule (store s) (clock w)) as [f|] eqn:H0.
  - rewrite (searchQueries_fault _ _ _ _ f Hds H0). simpl. repeat split.
    intros f' _ Hf. inversion Hf. reflexivity.
  - rewrite (searchQueries_run _ _ _ _ Hds H0). simpl. repeat split.
    intros f' _ Hf. discriminate.
Qed.

(** X18. The defaults of the filter: a page below 1 is page 1, a limit
    below 1 is 100, and every [Sort] other than ["time-asc"], the empty
    one included, is ["time-desc"]. *)
Theorem searchQueries_defaults (s : QueryHistoryService) (user : SignedInUser)
    (query : SearchInQueryHistoryQuery) (w : World) :
  (Page query <= 0 ->
     searchQueries s user query w = searchQueries s user (with_Page 1 query) w)
  /\ (Limit query <= 0 ->
        searchQueries s user query w
        = searchQueries s user (with_Limit 100 query) w)
  /\ (Sort query <> "time-asc" ->
        searchQueries s user query w
        = searchQueries s user (with_Sort "time-desc" query) w).
Proof.
  assert (Hst : forall q', DatasourceUIDs q' = DatasourceUIDs query ->
                  search_statement user q' = search_statement user query ->
                  searchQueries s user query w = searchQueries s user q' w).
  { intros q' Hd Hs. unfold searchQueries. rewrite Hd, Hs. reflexivity. }
  split; [|split].
  - intros Hp. apply Hst; [reflexivity|].
    unfold search_statement. simpl. f_equal.
    unfold default_page at 2. apply Z.leb_le in Hp. now rewrite Hp.
  - intros Hl. apply Hst; [reflexivity|].
    unfold search_statement. simpl.
    unfold default_limit at 3 4. apply Z.leb_le in Hl. now rewrite Hl.
  - intros Hsort. apply Hst; [reflexivity|].
    unfold search_statement. simpl. f_equal.
    unfold default_sort. apply String.eqb_neq in Hsort.
    destruct (String.eqb (Sort query) ""); [reflexivity|].
    now rewrite Hsort.
Qed.

Lemma searchQueries_defaults_witness :
  searchQueries (service no_faults) alice
    (search_q ["ds1"] false "newest" (-3) 0) (world_of db1)
  = searchQueries (service no_faults) alice
      (search_q ["ds1"] false "time-desc" 1 100) (world_of db1).
Proof.
  rewrite (proj1 (searchQueries_defaults (service no_faults) alice
                    (search_q ["ds1"] false "newest" (-3) 0) (world_of db1))
             ltac:(simpl; lia)).
  rewrite (proj1 (proj2 (searchQueries_defaults (service no_faults) alice
                    (with_Page 1 (search_q ["ds1"] false "newest" (-3) 0))
                    (world_of db1))) ltac:(simpl; lia)).
  rewrite (proj2 (proj2 (searchQueries_defaults (service no_faults) alice
                    (with_Limit 100
                       (with_Page 1 (search_q ["ds1"] false "newest" (-3) 0)))
                    (world_of db1))) ltac:(discriminate)).
  reflexivity.
Defined.






Lemma first_page_all (s : QueryHistoryService) (user : SignedInUser)
    (query : SearchInQueryHistoryQuery) (w : World) :
  DatasourceUIDs query <> [] ->
  fault_schedule (store s) (clock w) = None ->
  Page query <= 1 ->
  Z.of_nat (List.length (all_results s user query (db w)))
  <= default_limit (Limit query) ->
  fst (searchQueries s user query w) = (all_results s user query (db w), None).
Proof.
  intros Hds H0 Hp Hlen.
  assert (Hoff : default_limit (Limit query) * (default_page (Page query) - 1) = 0)
    by (rewrite (default_page_first _ Hp); lia).
  rewrite searchQueries_slice; auto.
  - rewrite Hoff. simpl (Z.to_nat 0). rewrite skipn_0.
    rewrite firstn_all2 by lia. reflexivity.
  - rewrite Hoff. unfold int_max. lia.
Qed.

Lemma join_row_unmatched (stars : list QueryHistoryStar.t) (q : QueryHistory.t) :
  (forall st, In st stars -> join_on q st = false) ->
  join_row LEFT_JOIN stars q = [(q, None)].
Proof. intros H. unfold join_row. now rewrite (filter_absent _ _ H). Qed.

(** X20. A query just created is found by its creator: after a
    [createQuery] with a uid that no query row carries and no star row
    references, a search of the creator without [OnlyStarred], over a set
    of data sources that holds the query's, with a search string the
    query's text matches, returns the DTO the create returned (first page,
    limit not below the size of the answer). *)
Theorem created_query_is_found (s : QueryHistoryService) (user : SignedInUser)
    (cmd : CreateQueryInQueryHistoryCommand) (uid : string) (now : Z)
    (query : SearchInQueryHistoryQuery) (w : World) :
  healthy s (clock w) 2 ->
  uid_fresh uid (db w) ->
  ~ referenced uid (db w) ->
  OnlyStarred query = false ->
  In (DatasourceUID cmd) (DatasourceUIDs query) ->
  LikeStr_match (dialect (store s))
    (String.append "%" (String.append (SearchString query) "%"))
    (Queries cmd) = true ->
  Page query <= 1 ->
  Z.of_nat (List.length
              (all_results s user query
                 (db (snd (createQuery s user cmd uid now w)))))
  <= default_limit (Limit query) ->
  In (fst (fst (createQuery s user cmd uid now w)))
     (fst (fst (searchQueries s user query
                  (snd (createQuery s user cmd uid now w))))).
Proof.
  intros H Hfresh Hnoref Ho Hds Hlike Hp Hlen.
  assert (H0 : fault_schedule (store s) (clock w) = None) by (runs H).
  assert (Hne : DatasourceUIDs query <> []).
  { intros E. rewrite E in Hds. contradiction. }
  rewrite first_page_all; auto.
  2:{ rewrite (createQuery_run _ _ _ _ _ _ H0 Hfresh). runs H. }
  revert Hlen. rewrite (createQuery_run _ _ _ _ _ _ H0 Hfresh). intros _.
  simpl fst. simpl db. unfold all_results.
  set (row := QueryHistory.mk (next_query_id (query_history (db w))) uid
                (OrgId user) (DatasourceUID cmd) (UserId user) now ""
                (Queries cmd)).
  apply in_map_iff. exists (row, None). split.
  - simpl. rewrite Ho. reflexivity.
  - unfold matching_rows. apply order_by_in. apply filter_In. split.
    + unfold join. apply in_flat_map. exists row. split.
      * simpl. apply in_or_app. right. now left.
      * simpl sql_join. rewrite Ho. simpl query_history_star.
        rewrite join_row_unmatched; [now left|].
        intros st Hst. apply not_true_is_false. intros E.
        apply Hnoref. exists st. split; [exact Hst|].
        now apply join_on_eq in E.
    + unfold where_clause. simpl. simpl in Hlike.
      rewrite !Z.eqb_refl, Hlike. simpl.
      apply existsb_exists. exists (DatasourceUID cmd).
      split; [exact Hds | apply String.eqb_refl].
Qed.

Lemma created_query_is_found_witness :
  In (QueryHistoryDTO.mk "q4" "ds1" 7 400 "" "[{refId:C}]" false)
     (fst (fst (searchQueries (service no_faults) alice
                  (search_q ["ds1"] false "" 0 0)
                  (snd (createQuery (service no_faults) alice create_cmd "q4"
                          400 (world_of db1)))))).
Proof.
  apply (created_query_is_found (service no_faults) alice create_cmd "q4" 400
           (search_q ["ds1"] false "" 0 0) (world_of db1)).
  - apply no_faults_healthy.
  - intros q [<-|[<-|[<-|[]]]]; discriminate.
  - intros [st [[<-|[]] E]]. discriminate.
  - reflexivity.
  - left. reflexivity.
  - reflexivity.
  - simpl. lia.
  - vm_compute. discriminate.
Defined.

(** ** What each operation can do to the tables *)

Lemma starQuery_tables (s : QueryHistoryService) (user : SignedInUser)
    (UID : string) (w : World) :
  db (snd (starQuery s user UID w)) = db w
  \/ (existsb (star_of (UserId user) UID) (query_history_star (db w)) = false
      /\ query_visible user UID (db w)
      /\ db (snd (starQuery s user UID w))
         = {| query_history := query_history (db w);
              query_history_star :=
                query_history_star (db w)
                ++ [QueryHistoryStar.mk (next_star_id (query_history_star (db w)))
                      UID (UserId user)] |}).
Proof.
  unfold starQuery. open_session. unfold statement.
  destruct (fault_schedule (store s) (clock w)); simpl; [now left|].
  destruct (find _ (query_history (db w))) as [q|] eqn:Hf; simpl; [|now left].
  destruct (fault_schedule (store s) (S (clock w))); simpl.
  - destruct (IsUniqueConstraintViolation _); now left.
  - destruct (existsb _ _) eqn:E; simpl; [now left|]. right.
    split; [reflexivity|]. split; [|reflexivity].
    apply find_some in Hf. exists q. exact Hf.
Qed.

Lemma unstarQuery_tables (s : QueryHistoryService) (user : SignedInUser)
    (UID : string) (w : World) :
  db (snd (unstarQuery s user UID w)) = db w
  \/ db (snd (unstarQuery s user UID w))
     = {| query_history := query_history (db w);
          query_history_star :=
            filter (fun st => negb (star_of (UserId user) UID st))
              (query_history_star (db w)) |}.
Proof.
  unfold unstarQuery. all_cases s w; try (now left).
  - destruct (fault_rows _ =? 0); now left.
  - destruct (rows_affected _ =? 0); simpl; [now left | now right].
Qed.

Lemma deleteQuery_tables (s : QueryHistoryService) (user : SignedInUser)
    (UID : string) (w : World) :
  db (snd (deleteQuery s user UID w)) = db w
  \/ db (snd (deleteQuery s user UID w))
     = {| query_history :=
            filter (fun q => negb (owned_by (OrgId user) (UserId user) UID q))
              (query_history (db w));
          query_history_star :=
            match fault_schedule (store s) (clock w) with
            | Some _ => query_history_star (db w)
            | None => filter (fun st => negb (star_of (UserId user) UID st))
                        (query_history_star (db w))
            end |}.
Proof.
  destruct (fault_schedule (store s) (S (clock w))) as [f|] eqn:H1.
  - left. apply (deleteQuery_query_fault s user UID w f H1).
  - rewrite (deleteQuery_run _ _ _ _ H1). cbv zeta.
    destruct (rows_affected _ =? 0); simpl; [now left | now right].
Qed.

Lemma patchQueryComment_tables (s : QueryHistoryService) (user : SignedInUser)
    (UID : string) (cmd : PatchQueryCommentInQueryHistoryCommand) (w : World) :
  db (snd (patchQueryComment s user UID cmd w)) = db w
  \/ exists q,
       In q (query_history (db w))
       /\ db (snd (patchQueryComment s user UID cmd w))
          = {| query_history :=
                 map (fun r =>
                        if QueryHistory.ID r =? QueryHistory.ID q
                        then update_row
                               (QueryHistory.with_Comment (Comment cmd) q) r
                        else r) (query_history (db w));
               query_history_star := query_history_star (db w) |}.
Proof.
  unfold patchQueryComment. open_session. unfold statement.
  destruct (fault_schedule (store s) (clock w)); simpl; [now left|].
  destruct (find _ (query_history (db w))) as [q|] eqn:Hf; simpl; [|now left].
  destruct (fault_schedule (store s) (S (clock w))); simpl; [now left|].
  destruct (fault_schedule (store s) (S (S (clock w)))); simpl; [now left|].
  right. exists q. split; [|reflexivity]. apply find_some in Hf. tauto.
Qed.

Lemma createQuery_tables (s : QueryHistoryService) (user : SignedInUser)
    (cmd : CreateQueryInQueryHistoryCommand) (uid : string) (now : Z) (w : World) :
  db (snd (createQuery s user cmd uid now w)) = db w
  \/ db (snd (createQuery s user cmd uid now w))
     = {| query_history :=
            query_history (db w)
            ++ [QueryHistory.mk (next_query_id (query_history (db w))) uid
                  (OrgId user) (DatasourceUID cmd) (UserId user) now ""
                  (Queries cmd)];
          query_history_star := query_history_star (db w) |}.
Proof.
  unfold createQuery, Insert_query. open_session. unfold statement.
  destruct (fault_schedule (store s) (clock w)); simpl; [left; now destruct (db w)|].
  destruct (existsb _ _); simpl; [left; now destruct (db w) | now right].
Qed.

Lemma NoDup_map_filter {Row Key} (key : Row -> Key) (keep : Row -> bool)
    (rows : list Row) (Hnd : NoDup (map key rows)) :
  NoDup (map key (filter keep rows)).
Proof.
  revert Hnd. induction rows as [|r rows IH]; simpl; intros H; [constructor|].
  inversion H as [|x l' Hnotin Hnd]; subst.
  destruct (keep r); simpl; [|now apply IH].
  constructor; [|now apply IH].
  intros Hin. apply Hnotin. apply in_map_iff in Hin.
  destruct Hin as [y [Hy Hin]]. apply filter_In in Hin.
  apply in_map_iff. exists y. tauto.
Qed.

Lemma NoDup_map_snoc {A B} (f : A -> B) (l : list A) (x : A) :
  NoDup (map f l) -> ~ In (f x) (map f l) -> NoDup (map f (l ++ [x])).
Proof.
  intros Hnd Hx. rewrite map_app. simpl.
  apply NoDup_app; [exact Hnd | repeat constructor; auto |].
  intros y Hy [<-|[]]. contradiction.
Qed.

Lemma star_key_absent (usr : Z) (uid : string) (id : Z)
    (stars : list QueryHistoryStar.t) :
  existsb (star_of usr uid) stars = false ->
  ~ In (star_key (QueryHistoryStar.mk id uid usr)) (map star_key stars).
Proof.
  intros E Hin. apply in_map_iff in Hin. destruct Hin as [st [Hk Hst]].
  unfold star_key in Hk. simpl in Hk. inversion Hk as [[Hu Hq]].
  assert (Hs : star_of usr uid st = true).
  { unfold star_of. rewrite Hu, Hq. now rewrite Z.eqb_refl, String.eqb_refl. }
  assert (Hex : existsb (star_of usr uid) stars = true)
    by (apply existsb_exists; exists st; auto).
  congruence.
Qed.

(** ** Invariants *)

(** X21. At most one star row per (user, query): whatever the store does,
    every operation of the service keeps the star table free of duplicate
    (user, query) pairs. *)
Theorem stars_unique_kept (s : QueryHistoryService) (user : SignedInUser)
    (UID : string) (cmd : PatchQueryCommentInQueryHistoryCommand)
    (ccmd : CreateQueryInQueryHistoryCommand) (now : Z)
    (query : SearchInQueryHistoryQuery) (w : World) :
  stars_unique (db w) ->
  stars_unique (db (snd (starQuery s user UID w)))
  /\ stars_unique (db (snd (unstarQuery s user UID w)))
  /\ stars_unique (db (snd (deleteQuery s user UID w)))
  /\ stars_unique (db (snd (patchQueryComment s user UID cmd w)))
  /\ stars_unique (db (snd (createQuery s user ccmd UID now w)))
  /\ stars_unique (db (snd (searchQueries s user query w))).
Proof.
  unfold stars_unique. intros H. repeat split.
  - destruct (starQuery_tables s user UID w) as [-> | [E [_ ->]]]; [exact H|].
    simpl. apply NoDup_map_snoc; [exact H|]. now apply star_key_absent.
  - destruct (unstarQuery_tables s user UID w) as [-> | ->]; [exact H|].
    simpl. now apply NoDup_map_filter.
  - destruct (deleteQuery_tables s user UID w) as [-> | ->]; [exact H|].
    simpl. destruct (fault_schedule (store s) (clock w)); [exact H|].
    now apply NoDup_map_filter.
  - destruct (patchQueryComment_tables s user UID cmd w) as [-> | [q [_ ->]]];
      exact H.
  - destruct (createQuery_tables s user ccmd UID now w) as [-> | ->]; exact H.
  - destruct (DatasourceUIDs query) as [|u us] eqn:E.
    + unfold searchQueries. rewrite E. exact H.
    + assert (Hds : DatasourceUIDs query <> []) by (rewrite E; discriminate).
      destruct (fault_schedule (store s) (clock w)) as [f|] eqn:H0.
      * rewrite (searchQueries_fault _ _ _ _ f Hds H0). exact H.
      * rewrite (searchQueries_run _ _ _ _ Hds H0). exact H.
Qed.

Lemma stars_unique_kept_witness :
  stars_unique (db (snd (starQuery (service no_faults) alice "q2" (world_of db2))))
  /\ stars_unique (db (snd (deleteQuery (service no_faults) alice "q1"
                              (world_of db2)))).
Proof.
  assert (H : stars_unique (db (world_of db2))).
  { unfold stars_unique. simpl. repeat constructor; simpl; intuition discriminate. }
  split.
  - apply (stars_unique_kept (service no_faults) alice "q2" {| Comment := "" |}
             create_cmd 0 (search_q [] false "" 0 0) (world_of db2) H).
  - apply (stars_unique_kept (service no_faults) alice "q1" {| Comment := "" |}
             create_cmd 0 (search_q [] false "" 0 0) (world_of db2) H).
Defined.

Lemma next_query_id_above (l : list QueryHistory.t) (q : QueryHistory.t) :
  In q l -> QueryHistory.ID q < next_query_id l.
Proof.
  intros Hq.
  assert (H : QueryHistory.ID q <= fold_right Z.max 0 (map QueryHistory.ID l)).
  { induction l as [|a l IH]; cbn [map fold_right In] in *; [contradiction|].
    destruct Hq as [->|Hq]; [apply Z.le_max_l|].
    etransitivity; [apply (IH Hq) | apply Z.le_max_r]. }
  unfold next_query_id. lia.
Qed.

Lemma map_ID_update (id : Z) (bean : QueryHistory.t) (l : list QueryHistory.t) :
  map QueryHistory.ID
    (map (fun r => if QueryHistory.ID r =? id then update_row bean r else r) l)
  = map QueryHistory.ID l.
Proof.
  rewrite map_map. apply map_ext. intros r.
  destruct (QueryHistory.ID r =? id); reflexivity.
Qed.

(** X22. The primary key: whatever the store does, every operation keeps
    the ids of [query_history] free of duplicates; [createQuery] gives the
    new row an id above all ids in the table. *)
Theorem ids_unique_kept (s : QueryHistoryService) (user : SignedInUser)
    (UID : string) (cmd : PatchQueryCommentInQueryHistoryCommand)
    (ccmd : CreateQueryInQueryHistoryCommand) (now : Z) (w : World) :
  ids_unique (db w) ->
  ids_unique (db (snd (createQuery s user ccmd UID now w)))
  /\ ids_unique (db (snd (patchQueryComment s user UID cmd w)))
  /\ ids_unique (db (snd (deleteQuery s user UID w)))
  /\ ids_unique (db (snd (starQuery s user UID w)))
  /\ ids_unique (db (snd (unstarQuery s user UID w))).
Proof.
  unfold ids_unique. intros H. repeat split.
  - destruct (createQuery_tables s user ccmd UID now w) as [-> | ->]; [exact H|].
    simpl. apply NoDup_map_snoc; [exact H|]. simpl.
    intros Hin. apply in_map_iff in Hin. destruct Hin as [q [Hid Hq]].
    apply next_query_id_above in Hq. lia.
  - destruct (patchQueryComment_tables s user UID cmd w) as [-> | [q [_ ->]]];
      [exact H|].
    simpl. now rewrite map_ID_update.
  - destruct (deleteQuery_tables s user UID w) as [-> | ->]; [exact H|].
    simpl. now apply NoDup_map_filter.
  - destruct (starQuery_tables s user UID w) as [-> | [_ [_ ->]]]; exact H.
  - destruct (unstarQuery_tables s user UID w) as [-> | ->]; exact H.
Qed.

Lemma ids_unique_kept_witness :
  ids_unique (db (snd (createQuery (service no_faults) alice create_cmd "q4" 400
                         (world_of db1))))
  /\ ids_unique (db (snd (patchQueryComment (service no_faults) alice "q4"
                            {| Comment := "c" |} (world_of db1)))).
Proof.
  assert (H : ids_unique (db (world_of db1))).
  { unfold ids_unique. simpl. repeat constructor; simpl; intuition discriminate. }
  split.
  - apply (ids_unique_kept (service no_faults) alice "q4" {| Comment := "c" |}
             create_cmd 400 (world_of db1) H).
  - apply (ids_unique_kept (service no_faults) alice "q4" {| Comment := "c" |}
             create_cmd 400 (world_of db1) H).
Defined.

Lemma star_of_eq (usr : Z) (uid : string) (st : QueryHistoryStar.t) :
  star_of usr uid st = true
  <-> QueryHistoryStar.UserID st = usr /\ QueryHistoryStar.QueryUID st = uid.
Proof.
  unfold star_of. rewrite andb_true_iff, Z.eqb_eq, String.eqb_eq. tauto.
Qed.

Lemma owned_by_eq (org usr : Z) (uid : string) (q : QueryHistory.t) :
  owned_by org usr uid q = true
  <-> QueryHistory.OrgID q = org /\ QueryHistory.CreatedBy q = usr
      /\ QueryHistory.UID q = uid.
Proof.
  unfold owned_by. rewrite !andb_true_iff, !Z.eqb_eq, String.eqb_eq. tauto.
Qed.

(** X23. No dangling star: when every star row belongs to a query row
    created by the star's user, this still holds after [starQuery],
    [unstarQuery] and [createQuery] whatever the store does, after
    [patchQueryComment] on a table with unique ids, and after [deleteQuery]
    when the store does not fail the delete of the star row. *)
Theorem stars_have_queries_kept (s : QueryHistoryService) (user : SignedInUser)
    (UID : string) (cmd : PatchQueryCommentInQueryHistoryCommand)
    (ccmd : CreateQueryInQueryHistoryCommand) (now : Z) (w : World) :
  stars_have_queries (db w) ->
  stars_have_queries (db (snd (starQuery s user UID w)))
  /\ stars_have_queries (db (snd (unstarQuery s user UID w)))
  /\ stars_have_queries (db (snd (createQuery s user ccmd UID now w)))
  /\ (ids_unique (db w) ->
      stars_have_queries (db (snd (patchQueryComment s user UID cmd w))))
  /\ (fault_schedule (store s) (clock w) = None ->
      stars_have_queries (db (snd (deleteQuery s user UID w)))).
Proof.
  unfold stars_have_queries. intros H. split; [|split; [|split; [|split]]].
  - destruct (starQuery_tables s user UID w) as [-> | [_ [Hv ->]]]; [exact H|].
    simpl. intros st Hst. apply in_app_or in Hst. destruct Hst as [Hst|[<-|[]]].
    + now apply H.
    + destruct Hv as [q [Hq Ho]]. apply owned_by_eq in Ho.
      exists q. simpl. tauto.
  - destruct (unstarQuery_tables s user UID w) as [-> | ->]; [exact H|].
    simpl. intros st Hst. apply filter_In in Hst. apply H. tauto.
  - destruct (createQuery_tables s user ccmd UID now w) as [-> | ->]; [exact H|].
    simpl. intros st Hst. destruct (H st Hst) as [q [Hq Hk]].
    exists q. split; [apply in_or_app; now left | exact Hk].
  - intros Hids.
    destruct (patchQueryComment_tables s user UID cmd w) as [-> | [q [Hq ->]]];
      [exact H|].
    simpl. intros st Hst. destruct (H st Hst) as [r [Hr Hk]].
    destruct (QueryHistory.ID r =? QueryHistory.ID q) eqn:E.
    + apply Z.eqb_eq in E.
      assert (Hrq : r = q) by (apply (same_id_same_row _ q r Hids Hq Hr E)).
      subst r.
      exists (update_row (QueryHistory.with_Comment (Comment cmd) q) q).
      split.
      * apply in_map_iff. exists q. rewrite Z.eqb_refl. auto.
      * unfold update_row. simpl. now rewrite pick_int_same, pick_string_same.
    + exists r. split; [|exact Hk].
      apply in_map_iff. exists r. rewrite E. auto.
  - intros H0.
    destruct (deleteQuery_tables s user UID w) as [-> | ->]; [exact H|].
    rewrite H0. simpl. intros st Hst. apply filter_In in Hst.
    destruct Hst as [Hst Hno]. apply negb_true_iff in Hno.
    destruct (H st Hst) as [q [Hq [Hc Hu]]].
    exists q. split; [|auto]. apply filter_In. split; [exact Hq|].
    apply negb_true_iff. apply not_true_is_false. intros Ho.
    apply owned_by_eq in Ho. destruct Ho as [_ [Hc' Hu']].
    assert (Hs : star_of (UserId user) UID st = true)
      by (apply star_of_eq; split; congruence).
    congruence.
Qed.

Lemma stars_have_queries_kept_witness :
  stars_have_queries
    (db (snd (deleteQuery (service no_faults) alice "q1" (world_of db1))))
  /\ stars_have_queries
       (db (snd (starQuery (service no_faults) alice "q1" (world_of db1)))).
Proof.
  assert (H : stars_have_queries (db (world_of db1))).
  { intros st [<-|[]]. exists q1. simpl. auto. }
  pose proof (stars_have_queries_kept (service no_faults) alice "q1"
                {| Comment := "" |} create_cmd 0 (world_of db1) H)
    as [Hstar [_ [_ [_ Hdelete]]]].
  split; [apply Hdelete; reflexivity | exact Hstar].
Defined.

(** ** Further compositions *)

(** X24. Unstarring twice: for a query the caller can see, a second
    [unstarQuery] right after a first one fails with
    [ErrStarredQueryNotFound], whether or not the first one found a star. *)
Theorem unstarQuery_twice (s : QueryHistoryService) (user : SignedInUser)
    (UID : string) (w : World) :
  healthy s (clock w) 4 ->
  query_visible user UID (db w) ->
  fst (unstarQuery s user UID (snd (unstarQuery s user UID w)))
  = (QueryHistoryDTO.zero, Some ErrStarredQueryNotFound).
Proof.
  intros H Hv. destruct (visible_find _ _ _ Hv) as [q [Hf _]].
  assert (H2 : healthy s (clock w) 2) by (apply (healthy_shift _ _ _ _ _ H); lia).
  assert (Hafter : exists w1, snd (unstarQuery s user UID w) = w1
                     /\ clock w1 = S (S (clock w))
                     /\ query_history (db w1) = query_history (db w)
                     /\ forall st, In st (query_history_star (db w1)) ->
                                   star_of (UserId user) UID st = false).
  { rewrite (unstarQuery_run _ _ _ _ q H2 Hf).
    destruct (rows_affected _ =? 0) eqn:E; eexists; (split; [reflexivity|]);
      simpl; repeat split.
    - apply Z.eqb_eq in E. now apply rows_affected_zero.
    - intros st Hst. now apply filter_negb_clears in Hst. }
  destruct Hafter as [w1 [-> [Hc [Hq Hs]]]].
  assert (H1 : healthy s (clock w1) 2)
    by (apply (healthy_shift _ _ _ _ _ H); lia).
  rewrite (unstarQuery_run _ _ _ _ q H1) by (rewrite Hq; exact Hf).
  rewrite (proj2 (rows_affected_zero _ _) Hs). reflexivity.
Qed.

Lemma unstarQuery_twice_witness :
  fst (unstarQuery (service no_faults) alice "q1"
         (snd (unstarQuery (service no_faults) alice "q1" (world_of db1))))
  = (QueryHistoryDTO.zero, Some ErrStarredQueryNotFound).
Proof.
  apply (unstarQuery_twice (service no_faults) alice "q1" (world_of db1)).
  - apply no_faults_healthy.
  - apply query_visible_iff. reflexivity.
Defined.

(** X25. The log: [deleteQuery] writes one entry exactly when the delete
    of the star row fails, also when the transaction is rolled back
    afterwards, and nothing otherwise; no other operation writes to the
    log. *)
Theorem log_written_by_delete_only (s : QueryHistoryService)
    (user : SignedInUser) (UID : string)
    (cmd : PatchQueryCommentInQueryHistoryCommand)
    (ccmd : CreateQueryInQueryHistoryCommand) (now : Z)
    (query : SearchInQueryHistoryQuery) (w : World) :
  log (snd (deleteQuery s user UID w))
  = match fault_schedule (store s) (clock w) with
    | Some f => log w ++ [unstar_failed_entry user UID (fault_err f)]
    | None => log w
    end
  /\ log (snd (starQuery s user UID w)) = log w
  /\ log (snd (unstarQuery s user UID w)) = log w
  /\ log (snd (patchQueryComment s user UID cmd w)) = log w
  /\ log (snd (createQuery s user ccmd UID now w)) = log w
  /\ log (snd (searchQueries s user query w)) = log w.
Proof.
  split; [|split; [|split; [|split; [|split]]]].
  - unfold deleteQuery. open_session. unfold statement.
    destruct (fault_schedule (store s) (clock w)); simpl;
      destruct (fault_schedule (store s) (S (clock w))); simpl;
      try destruct (rows_affected _ =? 0); reflexivity.
  - unfold starQuery. all_cases s w; try reflexivity.
    + destruct (IsUniqueConstraintViolation _); reflexivity.
    + destruct (existsb _ _); reflexivity.
  - unfold unstarQuery. all_cases s w; try reflexivity.
    + destruct (fault_rows _ =? 0); reflexivity.
    + destruct (rows_affected _ =? 0); reflexivity.
  - unfold patchQueryComment. all_cases s w; try reflexivity.
    destruct (fault_schedule (store s) (S (S (clock w)))); reflexivity.
  - unfold createQuery, Insert_query. open_session. unfold statement.
    destruct (fault_schedule (store s) (clock w)); simpl; [reflexivity|].
    destruct (existsb _ _); reflexivity.
  - unfold searchQueries. destruct (DatasourceUIDs query); [reflexivity|].
    open_session. unfold statement.
    destruct (fault_schedule (store s) (clock w)); simpl; [reflexivity|].
    destruct (run_search _ _ _) as [rows [e|]]; reflexivity.
Qed.

Lemma firstn_then {A} (a b : nat) (m : list A) :
  firstn a m ++ firstn b (skipn a m) = firstn (a + b) m.
Proof.
  revert m. induction a as [|a IH]; intros m; [reflexivity|].
  destruct m as [|x m]; simpl.
  - now rewrite firstn_nil.
  - f_equal. apply IH.
Qed.

(** X26. Consecutive pages are contiguous: without overflow of the
    offsets, page [p] followed by page [p + 1] with the same limit is the
    segment of twice the limit that starts where page [p] starts, so no row
    of the answer falls between two pages. *)
Theorem searchQueries_next_page (s : QueryHistoryService) (user : SignedInUser)
    (query : SearchInQueryHistoryQuery) (w w2 : World) :
  DatasourceUIDs query <> [] ->
  fault_schedule (store s) (clock w) = None ->
  fault_schedule (store s) (clock w2) = None ->
  db w2 = db w ->
  default_limit (Limit query) * default_page (Page query) <= int_max ->
  fst (fst (searchQueries s user query w))
  ++ fst (fst (searchQueries s user
                 (with_Page (default_page (Page query) + 1) query) w2))
  = firstn (Z.to_nat (2 * default_limit (Limit query)))
      (skipn (Z.to_nat (default_limit (Limit query)
                        * (default_page (Page query) - 1)))
         (all_results s user query (db w))).
Proof.
  intros Hds H0 H2 Hdb Hfit.
  pose proof (default_page_pos (Page query)) as Hp.
  pose proof (default_limit_pos (Limit query)) as Hl.
  assert (Hnext : default_page (default_page (Page query) + 1)
                  = default_page (Page query) + 1).
  { unfold default_page at 1.
    destruct (default_page (Page query) + 1 <=? 0) eqn:E; [|reflexivity].
    apply Z.leb_le in E. lia. }
  rewrite searchQueries_slice by (auto; nia).
  rewrite (searchQueries_slice s user
             (with_Page (default_page (Page query) + 1) query) w2)
    by (auto; simpl; rewrite Hnext; nia).
  simpl fst. simpl (Limit _). simpl (Page _). rewrite Hnext, Hdb, all_results_page.
  set (l := all_results s user query (db w)).
  set (n := Z.to_nat (default_limit (Limit query))).
  set (a := Z.to_nat (default_limit (Limit query)
                      * (default_page (Page query) - 1))).
  replace (Z.to_nat (default_limit (Limit query)
                     * (default_page (Page query) + 1 - 1)))
    with (n + a)%nat by (unfold n, a; nia).
  replace (Z.to_nat (2 * default_limit (Limit query))) with (n + n)%nat
    by (unfold n; lia).
  rewrite <- skipn_skipn.
  apply firstn_then.
Qed.

Lemma searchQueries_next_page_witness :
  fst (fst (searchQueries (service no_faults) alice
              (search_q ["ds1"; "ds2"] false "time-asc" 1 1) (world_of db1)))
  ++ fst (fst (searchQueries (service no_faults) alice
                 (with_Page 2 (search_q ["ds1"; "ds2"] false "time-asc" 1 1))
                 (world_of db1)))
  = [dto_of q1 true; dto_of q2 false].
Proof.
  apply (eq_trans
           (searchQueries_next_page (service no_faults) alice
              (search_q ["ds1"; "ds2"] false "time-asc" 1 1)
              (world_of db1) (world_of db1)
              ltac:(discriminate) eq_refl eq_refl eq_refl
              ltac:(vm_compute; discriminate))).
  reflexivity.
Defined.

Lemma deleteQuery_frame_witness :
  In q2 (query_history
           (db (snd (deleteQuery (service no_faults) alice "q1" (world_of db2)))))
  /\ In foreign_star_q2
       (query_history_star
          (db (snd (deleteQuery (service no_faults) alice "q1" (world_of db2))))).
Proof.
  split.
  - apply (proj1 (deleteQuery_frame (service no_faults) alice "q1" (world_of db2))).
    + right. left. reflexivity.
    + reflexivity.
  - apply (proj1 (proj2 (deleteQuery_frame (service no_faults) alice "q1"
                           (world_of db2)))).
    + right. left. reflexivity.
    + reflexivity.
Defined.

Lemma starQuery_frame_witness :
  db (snd (starQuery (service no_faults) alice "q1" (world_of db1))) = db1.
Proof.
  apply (proj2 (proj2 (starQuery_frame (service no_faults) alice "q1"
                         (world_of db1)))).
  discriminate.
Defined.

Lemma unstarQuery_frame_witness :
  In foreign_star_q2
    (query_history_star
       (db (snd (unstarQuery (service no_faults) alice "q1" (world_of db2))))).
Proof.
  apply (proj2 (proj2 (unstarQuery_frame (service no_faults) alice "q1"
                         (world_of db2)))).
  - right. left. reflexivity.
  - reflexivity.
Defined.

Lemma searchQueries_read_only_witness :
  fst (searchQueries (service (fail_at 0 driver_down)) alice
         (search_q ["ds1"] false "" 1 10) (world_of db1))
  = ([], Some (ErrStore (DriverErr 1))).
Proof.
  apply (proj2 (proj2 (searchQueries_read_only
                         (service (fail_at 0 driver_down)) alice
                         (search_q ["ds1"] false "" 1 10) (world_of db1)))
           driver_down).
  - discriminate.
  - reflexivity.
Defined.



(** X27. The DTO of a successful [starQuery] or [unstarQuery] is the
    projection of the caller's stored row for the uid, comment and queries
    included, with [Starred] true after the star and false after the
    unstar. *)
Theorem star_unstar_dto (s : QueryHistoryService) (user : SignedInUser)
    (UID : string) (w : World) :
  healthy s (clock w) 2 ->
  query_visible user UID (db w) ->
  exists q,
    In q (query_history (db w))
    /\ owned_by (OrgId user) (UserId user) UID q = true
    /\ (~ starred_by user UID (db w) ->
        fst (starQuery s user UID w) = (dto_of q true, None))
    /\ (starred_by user UID (db w) ->
        fst (unstarQuery s user UID w) = (dto_of q false, None)).
Proof.
  intros H Hv. destruct (find_present _ _ Hv) as [q [Hf [Hq Ho]]].
  exists q. split; [exact Hq|]. split; [exact Ho|]. split.
  - intros Hs.
    rewrite (starQuery_fresh _ _ _ _ q H Hf (not_starred_existsb _ _ _ Hs)).
    reflexivity.
  - intros Hs. rewrite (unstarQuery_run _ _ _ _ q H Hf).
    rewrite (rows_affected_present _ _ Hs). reflexivity.
Qed.

Lemma star_unstar_dto_witness :
  exists q,
    In q (query_history (db (world_of db1)))
    /\ owned_by (OrgId alice) (UserId alice) "q1" q = true
    /\ (~ starred_by alice "q1" (db (world_of db1)) ->
        fst (starQuery (service no_faults) alice "q1" (world_of db1))
        = (dto_of q true, None))
    /\ (starred_by alice "q1" (db (world_of db1)) ->
        fst (unstarQuery (service no_faults) alice "q1" (world_of db1))
        = (dto_of q false, None)).
Proof.
  apply (star_unstar_dto (service no_faults) alice "q1" (world_of db1)).
  - apply no_faults_healthy.
  - apply query_visible_iff. reflexivity.
Defined.

(** X28. The search returns only what the filter asks for: every DTO
    returned copies the columns of a query row of the caller's organisation
    and user whose data source is in the given set and whose serialized
    queries match the pattern made of the search string between two [%]. *)
Theorem searchQueries_sound (s : QueryHistoryService) (user : SignedInUser)
    (query : SearchInQueryHistoryQuery) (w : World) :
  forall dto, In dto (fst (fst (searchQueries s user query w))) ->
    exists q,
      In q (query_history (db w))
      /\ dto = dto_of q (QueryHistoryDTO.Starred dto)
      /\ QueryHistory.OrgID q = OrgId user
      /\ QueryHistory.CreatedBy q = UserId user
      /\ In (QueryHistory.DatasourceUID q) (DatasourceUIDs query)
      /\ LikeStr_match (dialect (store s))
           (String.append "%" (String.append (SearchString query) "%"))
           (QueryHistory.Queries q) = true.
Proof.
  intros dto Hin. apply searchQueries_rows in Hin.
  destruct Hin as [r [Hr [Hwhere ->]]].
  pose proof (where_clause_scope _ _ _ _ Hwhere) as [Ho [Hc Hd]].
  apply join_in in Hr. destruct Hr as [Hr _].
  exists (fst r). repeat split; auto.
  unfold where_clause in Hwhere.
  apply andb_true_iff in Hwhere. destruct Hwhere as [Hw _].
  apply andb_true_iff in Hw. destruct Hw as [_ Hlike]. exact Hlike.
Qed.

Lemma searchQueries_sound_witness :
  exists q,
    In q (query_history (db (world_of db1)))
    /\ dto_of q1 true = dto_of q (QueryHistoryDTO.Starred (dto_of q1 true))
    /\ QueryHistory.OrgID q = OrgId alice
    /\ QueryHistory.CreatedBy q = UserId alice
    /\ In (QueryHistory.DatasourceUID q) ["ds1"]
    /\ LikeStr_match sample_dialect "%refId%" (QueryHistory.Queries q) = true.
Proof.
  apply (searchQueries_sound (service no_faults) alice
           (search_q ["ds1"] true "" 1 10) (world_of db1) (dto_of q1 true)).
  left. reflexivity.
Defined.
